(** * plotResults.py: the report renderer of In_NetworkComputing

    A shallow embedding of [scripts/plotResults.py].  The script reads a
    CSV of simulation results, splits the rows into the INC-enabled and the
    traditional cohort, and draws four line charts with pyplot.

    Modelling decisions:
    - the interpreter is a state-and-exception monad over the file system,
      standard output, a log of the library calls and pyplot's figure stack;
    - a data frame is the list of its rows, in file order;
    - numpy's float64 is an extended real: NaN, the two infinities, or an
      exact real number.  Rounding is not modelled: [np.log10] and
      [np.power] are the real logarithm and power.  The program's values
      agree with these where float64 is exact (log10 of 10 and 1000, the
      powers 10^1 and 10^3, NaN and the infinities, signs, the number of
      ticks) and differ by rounding elsewhere: [10**log10(8)] is
      7.999999999999999 in float64 and 8 here.  The statements about tick
      values are kept to what holds on both sides;
    - the tables are those pandas reads into int64 columns. *)

From Stdlib Require Import ZArith List Ascii String Lia Reals Lra.
From stdpp Require Import base option list sorting strings gmap pretty.

Local Open Scope Z_scope.

(** ** Data model *)

(** One line of the CSV.  Every column the script reads is an integer
    column of [result.csv], which pandas holds as int64: the rows meant are
    those whose values lie in that range ([row_int64] below).  Tables with
    larger integers or with fractional values are outside this model. *)
Record ResultRow := mkRow {
  CompNodes : Z;
  INC : Z;
  TimingCost : Z;
  BandwidthUsage_Msg : Z;
  BandwidthUsage_Byte : Z;
  ComplTimeDiff : Z
}.

Abbreviation DataFrame := (list ResultRow).

(** [df[col]]: a column of the frame, as a pandas Series. *)
Definition column (col : ResultRow -> Z) (df : DataFrame) : list Z :=
  map col df.

(** [df[df['INC'] == v]]: boolean-mask selection, order preserving. *)
Definition select_INC (v : Z) (df : DataFrame) : DataFrame :=
  filter (fun r => INC r = v) df.

(** ** Numbers *)

(** What [Series.max()] / [Series.min()] give on an integer column: a
    [numpy.int64], or [nan] when the series has no element (pandas does not
    raise on an empty reduction). *)
Inductive scalar :=
  | SNaN
  | SInt (z : Z).

(** [numpy.float64] without rounding. *)
Inductive float64 :=
  | NaN
  | Inf (negative : bool)
  | Fin (r : R).

Definition list_max_Z (z : Z) (zs : list Z) : Z := foldr Z.max z zs.
Definition list_min_Z (z : Z) (zs : list Z) : Z := foldr Z.min z zs.

Definition series_max (s : list Z) : scalar :=
  match s with
  | [] => SNaN
  | z :: zs => SInt (list_max_Z z zs)
  end.

Definition series_min (s : list Z) : scalar :=
  match s with
  | [] => SNaN
  | z :: zs => SInt (list_min_Z z zs)
  end.

(** [a > b] and [a < b] on scalars: every comparison with [nan] is false. *)
Definition scalar_gt (a b : scalar) : bool :=
  match a, b with
  | SInt x, SInt y => bool_decide (y < x)
  | _, _ => false
  end.

Definition scalar_lt (a b : scalar) : bool := scalar_gt b a.

(** Python's builtin [max(a, b)] and [min(a, b)]: the first argument is
    kept unless the second one compares strictly greater (smaller). *)
Definition py_max (a b : scalar) : scalar := if scalar_gt b a then b else a.
Definition py_min (a b : scalar) : scalar := if scalar_lt b a then b else a.

(** *** float64 arithmetic (exact on finite values) *)

Definition f_neg (a : float64) : float64 :=
  match a with
  | NaN => NaN
  | Inf s => Inf (negb s)
  | Fin r => Fin (- r)
  end.

Definition f_add (a b : float64) : float64 :=
  match a, b with
  | NaN, _ | _, NaN => NaN
  | Inf s, Inf t => if bool_decide (s = t) then Inf s else NaN
  | Inf s, Fin _ | Fin _, Inf s => Inf s
  | Fin x, Fin y => Fin (x + y)
  end.

Definition f_sub (a b : float64) : float64 := f_add a (f_neg b).

Definition R_negative (r : R) : bool := if Rlt_dec r 0 then true else false.
Definition R_zero (r : R) : bool := if Req_dec_T r 0 then true else false.

Definition f_mul (a b : float64) : float64 :=
  match a, b with
  | NaN, _ | _, NaN => NaN
  | Inf s, Inf t => Inf (xorb s t)
  | Inf s, Fin r | Fin r, Inf s =>
      if R_zero r then NaN else Inf (xorb s (R_negative r))
  | Fin x, Fin y => Fin (x * y)
  end.

(** Division by a positive Python int (the [div] of [linspace]). *)
Definition f_div_int (a : float64) (d : nat) : float64 :=
  match a with
  | NaN => NaN
  | Inf s => Inf s
  | Fin r => Fin (r / INR d)
  end.

(** [step == 0] *)
Definition f_is_zero (a : float64) : bool :=
  match a with
  | Fin r => R_zero r
  | _ => false
  end.

(** [np.log10] of a scalar: [-inf] at zero, [nan] below zero and at
    [nan]; numpy warns but does not raise.  On a positive integer this is
    the real logarithm, of which the program has the float64 rounding. *)
Definition np_log10 (x : scalar) : float64 :=
  match x with
  | SNaN => NaN
  | SInt z =>
      if bool_decide (0 < z) then Fin (ln (IZR z) / ln 10)
      else if bool_decide (z = 0) then Inf true
      else NaN
  end.

(** [np.power(10.0, y)]: the real power on a finite exponent, of which the
    program has the float64 rounding. *)
Definition np_power10 (y : float64) : float64 :=
  match y with
  | NaN => NaN
  | Inf true => Fin 0
  | Inf false => Inf false
  | Fin r => Fin (Rpower 10 r)
  end.

(** [np.arange(0, num)] as floats. *)
Definition np_arange (num : nat) : list float64 :=
  map (fun i => Fin (INR i)) (seq 0 num).

(** [y[-1] = stop] *)
Definition set_last (y : list float64) (stop : float64) : list float64 :=
  <[pred (length y) := stop]> y.

(** [np.linspace(start, stop, num)] with [endpoint=True], following
    numpy's [function_base.linspace] line by line. *)
Definition np_linspace (start stop : float64) (num : nat) : list float64 :=
  let div := pred num in
  let delta := f_sub stop start in
  let y := np_arange num in
  let y :=
    if bool_decide (0 < div)%nat then
      let step := f_div_int delta div in
      if f_is_zero step
      then map (fun yi => f_mul (f_div_int yi div) delta) y
      else map (fun yi => f_mul yi step) y
    else map (fun yi => f_mul yi delta) y in
  let y := map (fun yi => f_add yi start) y in
  if bool_decide (1 < num)%nat then set_last y stop else y.

(** [np.logspace(start, stop, num)], base 10. *)
Definition np_logspace (start stop : float64) (num : nat) : list float64 :=
  map np_power10 (np_linspace start stop num).

(** ** Exceptions and the interpreter monad *)

Inductive exn :=
  | SystemExit (code : Z)
  | FileNotFoundError
  | FileExistsError
  | IsADirectoryError
  | NotADirectoryError
  | ParserError
  | ValueError
  | ReferenceError
  | OverflowError.

Inductive result (A : Type) :=
  | Ok (a : A)
  | Raise (e : exn).
Arguments Ok {A} a.
Arguments Raise {A} e.

(** [int(tick)]: truncation towards zero; [nan] and the infinities cannot
    be converted. *)
Definition R_trunc (r : R) : Z :=
  if Rle_dec 0 r then Int_part r else - Int_part (- r).

Definition py_int (x : float64) : result Z :=
  match x with
  | NaN => Raise ValueError
  | Inf _ => Raise OverflowError
  | Fin r => Ok (R_trunc r)
  end.

(** [f'{n:,}']: decimal digits in groups of three. *)
Fixpoint group_rev (k : nat) (ds : list ascii) : list ascii :=
  match ds with
  | [] => []
  | d :: ds' =>
      match k with
      | O => ","%char :: d :: group_rev 2 ds'
      | S k' => d :: group_rev k' ds'
      end
  end.

Definition group_digits (digits : string) : string :=
  string_of_list_ascii
    (rev (group_rev 3 (rev (list_ascii_of_string digits)))).

Definition format_thousands (n : Z) : string :=
  if bool_decide (n < 0)
  then ("-" +:+ group_digits (pretty (Z.to_N (- n))))%string
  else group_digits (pretty (Z.to_N n)).

(** [[f'{int(tick):,}' for tick in ticks]]: the first tick that cannot be
    converted raises. *)
Fixpoint tick_labels (ticks : list float64) : result (list string) :=
  match ticks with
  | [] => Ok []
  | tick :: rest =>
      match py_int tick with
      | Raise e => Raise e
      | Ok n =>
          match tick_labels rest with
          | Raise e => Raise e
          | Ok labels => Ok (format_thousands n :: labels)
          end
      end
  end.

(** ** pyplot figures *)

Record Text := mkText {
  text : string;
  fontsize : Z;
  fontweight : string
}.

Record Line2D := mkLine {
  xdata : list Z;
  ydata : list Z;
  line_label : string;
  marker : string
}.

Record Figure := mkFigure {
  figsize : option (Z * Z);
  fig_lines : list Line2D;
  fig_title : option Text;
  fig_xlabel : option Text;
  fig_ylabel : option Text;
  fig_legend : option (string * Z);
  fig_grid : bool;
  fig_xscale : string;
  fig_yscale : string;
  fig_xticks : option (list float64 * list string);
  fig_tight : bool
}.

Definition new_figure (size : option (Z * Z)) : Figure :=
  mkFigure size [] None None None None false "linear" "linear" None false.

Definition add_line (l : Line2D) (f : Figure) : Figure :=
  mkFigure (figsize f) (fig_lines f ++ [l]) (fig_title f) (fig_xlabel f)
    (fig_ylabel f) (fig_legend f) (fig_grid f) (fig_xscale f) (fig_yscale f)
    (fig_xticks f) (fig_tight f).

Definition set_title (t : Text) (f : Figure) : Figure :=
  mkFigure (figsize f) (fig_lines f) (Some t) (fig_xlabel f)
    (fig_ylabel f) (fig_legend f) (fig_grid f) (fig_xscale f) (fig_yscale f)
    (fig_xticks f) (fig_tight f).

Definition set_xlabel (t : Text) (f : Figure) : Figure :=
  mkFigure (figsize f) (fig_lines f) (fig_title f) (Some t)
    (fig_ylabel f) (fig_legend f) (fig_grid f) (fig_xscale f) (fig_yscale f)
    (fig_xticks f) (fig_tight f).

Definition set_ylabel (t : Text) (f : Figure) : Figure :=
  mkFigure (figsize f) (fig_lines f) (fig_title f) (fig_xlabel f)
    (Some t) (fig_legend f) (fig_grid f) (fig_xscale f) (fig_yscale f)
    (fig_xticks f) (fig_tight f).

Definition set_legend (loc : string) (size : Z) (f : Figure) : Figure :=
  mkFigure (figsize f) (fig_lines f) (fig_title f) (fig_xlabel f)
    (fig_ylabel f) (Some (loc, size)) (fig_grid f) (fig_xscale f)
    (fig_yscale f) (fig_xticks f) (fig_tight f).

Definition set_grid (b : bool) (f : Figure) : Figure :=
  mkFigure (figsize f) (fig_lines f) (fig_title f) (fig_xlabel f)
    (fig_ylabel f) (fig_legend f) b (fig_xscale f) (fig_yscale f)
    (fig_xticks f) (fig_tight f).

Definition set_xscale (sc : string) (f : Figure) : Figure :=
  mkFigure (figsize f) (fig_lines f) (fig_title f) (fig_xlabel f)
    (fig_ylabel f) (fig_legend f) (fig_grid f) sc (fig_yscale f)
    (fig_xticks f) (fig_tight f).

Definition set_yscale (sc : string) (f : Figure) : Figure :=
  mkFigure (figsize f) (fig_lines f) (fig_title f) (fig_xlabel f)
    (fig_ylabel f) (fig_legend f) (fig_grid f) (fig_xscale f) sc
    (fig_xticks f) (fig_tight f).

Definition set_xticks (ticks : list float64) (labels : list string)
    (f : Figure) : Figure :=
  mkFigure (figsize f) (fig_lines f) (fig_title f) (fig_xlabel f)
    (fig_ylabel f) (fig_legend f) (fig_grid f) (fig_xscale f) (fig_yscale f)
    (Some (ticks, labels)) (fig_tight f).

Definition set_tight (f : Figure) : Figure :=
  mkFigure (figsize f) (fig_lines f) (fig_title f) (fig_xlabel f)
    (fig_ylabel f) (fig_legend f) (fig_grid f) (fig_xscale f) (fig_yscale f)
    (fig_xticks f) true.

(** ** The world the script runs in *)

Inductive content :=
  | Csv (df : DataFrame)      (* a well-formed table with all six columns *)
  | Png (fig : Figure)        (* an image written by [savefig] *)
  | Blob.                     (* bytes that pandas cannot read as a table *)

Inductive node :=
  | Dir
  | File (c : content).

(** The library calls that touch the outside world, in call order. *)
Inductive call :=
  | CallExists (path : string)
  | CallReadCsv (path : string)
  | CallMakedirs (path : string)
  | CallSavefig (path : string).

(** A variable holds a reference to a frame object of the heap. *)
Abbreviation loc := nat.

Record state := mkState {
  fs : gmap string node;      (* paths relative to the working directory *)
  stdout : list string;       (* one entry per [print] *)
  calls : list call;
  figures : list Figure;      (* pyplot's open figures, the current one first *)
  heap : list DataFrame       (* the frame objects, by allocation order *)
}.

Definition Py (A : Type) : Type := state -> result A * state.

Definition ret {A} (a : A) : Py A := fun s => (Ok a, s).

Definition raise {A} (e : exn) : Py A := fun s => (Raise e, s).

Definition bind {A B} (m : Py A) (k : A -> Py B) : Py B :=
  fun s =>
    match m s with
    | (Ok a, s') => k a s'
    | (Raise e, s') => (Raise e, s')
    end.

Definition lift {A} (r : result A) : Py A := fun s => (r, s).

Declare Scope py_scope.
Delimit Scope py_scope with py.
Notation "x <- m ;; k" := (bind m (fun x => k))
  (at level 100, m at next level, right associativity) : py_scope.
Notation "m ;; k" := (bind m (fun _ => k))
  (at level 100, right associativity) : py_scope.
Local Open Scope py_scope.

Definition log (c : call) : Py unit :=
  fun s =>
    (Ok tt, mkState (fs s) (stdout s) (calls s ++ [c]) (figures s) (heap s)).

Definition set_fs (m : gmap string node) : Py unit :=
  fun s => (Ok tt, mkState m (stdout s) (calls s) (figures s) (heap s)).

Definition get_fs : Py (gmap string node) := fun s => (Ok (fs s), s).

(** [print(msg)] *)
Definition print (msg : string) : Py unit :=
  fun s =>
    (Ok tt, mkState (fs s) (stdout s ++ [msg]) (calls s) (figures s) (heap s)).

(** [sys.exit(code)] *)
Definition sys_exit {A} (code : Z) : Py A := raise (SystemExit code).

(** [os.path.exists(path)]: true for files and directories alike. *)
Definition os_path_exists (path : string) : Py bool :=
  log (CallExists path) ;;
  m <- get_fs ;;
  ret (bool_decide (is_Some (m !! path))).

(** [os.makedirs(path)] for a single path component. *)
Definition os_makedirs (path : string) : Py unit :=
  log (CallMakedirs path) ;;
  m <- get_fs ;;
  match m !! path with
  | Some _ => raise FileExistsError
  | None => set_fs (<[path := Dir]> m)
  end.

(** *** Frame objects *)

Definition alloc (df : DataFrame) : Py loc :=
  fun s =>
    (Ok (length (heap s)),
     mkState (fs s) (stdout s) (calls s) (figures s) (heap s ++ [df])).

(** Reading through a reference; a reference obtained from [alloc] is
    always bound. *)
Definition load (l : loc) : Py DataFrame :=
  fun s =>
    match heap s !! l with
    | Some df => (Ok df, s)
    | None => (Raise ReferenceError, s)
    end.

(** [frame[col]] *)
Definition getitem (frame : loc) (col : ResultRow -> Z) : Py (list Z) :=
  df <- load frame ;;
  ret (column col df).

(** [frame[frame['INC'] == v]]: a new frame object. *)
Definition getitem_INC_eq (frame : loc) (v : Z) : Py loc :=
  df <- load frame ;;
  alloc (select_INC v df).

(** [pd.read_csv(path)].  A directory cannot be opened; a file that
    pandas cannot read as a table (an image, other binary data) fails in
    the parser, reported as [ParserError].  A CSV that parses but lacks one
    of the six columns is not represented among the [content]s: the script
    reads it and fails later, with a [KeyError] at the first access to the
    missing column. *)
Definition pd_read_csv (path : string) : Py loc :=
  log (CallReadCsv path) ;;
  m <- get_fs ;;
  match m !! path with
  | None => raise FileNotFoundError
  | Some Dir => raise IsADirectoryError
  | Some (File (Csv df)) => alloc df
  | Some (File _) => raise ParserError
  end.

(** *** pyplot *)

Definition set_figures (figs : list Figure) : Py unit :=
  fun s => (Ok tt, mkState (fs s) (stdout s) (calls s) figs (heap s)).

Definition get_figures : Py (list Figure) := fun s => (Ok (figures s), s).

(** Apply a change to the current figure; pyplot opens a default figure
    when there is none. *)
Definition on_gcf (change : Figure -> Figure) : Py unit :=
  figs <- get_figures ;;
  match figs with
  | [] => set_figures [change (new_figure None)]
  | fig :: rest => set_figures (change fig :: rest)
  end.

Definition plt_gcf : Py Figure :=
  figs <- get_figures ;;
  match figs with
  | [] => set_figures [new_figure None] ;; ret (new_figure None)
  | fig :: _ => ret fig
  end.

Definition plt_figure (size : Z * Z) : Py unit :=
  figs <- get_figures ;;
  set_figures (new_figure (Some size) :: figs).

Definition plt_plot (x y : list Z) (label marker : string) : Py unit :=
  on_gcf (add_line (mkLine x y label marker)).

Definition plt_title (t weight : string) (size : Z) : Py unit :=
  on_gcf (set_title (mkText t size weight)).

Definition plt_xlabel (t : string) (size : Z) (weight : string) : Py unit :=
  on_gcf (set_xlabel (mkText t size weight)).

Definition plt_ylabel (t : string) (size : Z) (weight : string) : Py unit :=
  on_gcf (set_ylabel (mkText t size weight)).

Definition plt_legend (loc : string) (size : Z) : Py unit :=
  on_gcf (set_legend loc size).

Definition plt_grid (b : bool) : Py unit := on_gcf (set_grid b).
Definition plt_xscale (sc : string) : Py unit := on_gcf (set_xscale sc).
Definition plt_yscale (sc : string) : Py unit := on_gcf (set_yscale sc).

Definition plt_xticks (ticks : list float64) (labels : list string) : Py unit :=
  on_gcf (set_xticks ticks labels).

Definition plt_tight_layout : Py unit := on_gcf set_tight.

(** [os.path.dirname]: what precedes the last slash, if there is one. *)
Fixpoint dirname (path : string) : option string :=
  match path with
  | EmptyString => None
  | String c rest =>
      match dirname rest with
      | Some d => Some (String c d)
      | None => if Ascii.eqb c "/" then Some EmptyString else None
      end
  end.

(** Opening [path] for writing. *)
Definition open_for_write (m : gmap string node) (path : string) : result unit :=
  match dirname path with
  | None => match m !! path with Some Dir => Raise IsADirectoryError | _ => Ok tt end
  | Some d =>
      match m !! d with
      | None => Raise FileNotFoundError
      | Some (File _) => Raise NotADirectoryError
      | Some Dir =>
          match m !! path with Some Dir => Raise IsADirectoryError | _ => Ok tt end
      end
  end.

(** [plt.savefig(path)]: the current figure replaces whatever [path] held. *)
Definition plt_savefig (path : string) : Py unit :=
  log (CallSavefig path) ;;
  fig <- plt_gcf ;;
  m <- get_fs ;;
  lift (open_for_write m path) ;;
  set_fs (<[path := File (Png fig)]> m).

(** [plt.close()]: the current figure is released. *)
Definition plt_close : Py unit :=
  figs <- get_figures ;;
  set_figures (tail figs).

(** ** The script *)

Definition plot_timing_cost (inc_enabled traditional : loc) : Py unit :=
  plt_figure (14, 7) ;;
  x <- getitem inc_enabled CompNodes ;;
  y <- getitem inc_enabled TimingCost ;;
  plt_plot x y "INC-enabled" "o" ;;
  x <- getitem traditional CompNodes ;;
  y <- getitem traditional TimingCost ;;
  plt_plot x y "Traditional" "D" ;;
  plt_title "Timing Cost" "bold" 18 ;;
  plt_xlabel "Computing Nodes" 14 "bold" ;;
  plt_ylabel "Timing Cost (Ticks)" 14 "bold" ;;
  plt_legend "upper left" 12 ;;
  plt_grid true ;;
  plt_xscale "log" ;;
  plt_yscale "linear" ;;
  inc_nodes <- getitem inc_enabled CompNodes ;;
  trad_nodes <- getitem traditional CompNodes ;;
  let max_comp_nodes := py_max (series_max inc_nodes) (series_max trad_nodes) in
  inc_nodes <- getitem inc_enabled CompNodes ;;
  trad_nodes <- getitem traditional CompNodes ;;
  let min_comp_nodes := py_min (series_min inc_nodes) (series_min trad_nodes) in
  let ticks :=
    np_logspace (np_log10 min_comp_nodes) (np_log10 max_comp_nodes) 10 in
  labels <- lift (tick_labels ticks) ;;
  plt_xticks ticks labels ;;
  plt_tight_layout ;;
  plt_savefig "results/TimingCost.png" ;;
  plt_close.

Definition plot_bandwidth_usage_msg (inc_enabled traditional : loc) : Py unit :=
  plt_figure (14, 7) ;;
  x <- getitem inc_enabled CompNodes ;;
  y <- getitem inc_enabled BandwidthUsage_Msg ;;
  plt_plot x y "INC-enabled" "o" ;;
  x <- getitem traditional CompNodes ;;
  y <- getitem traditional BandwidthUsage_Msg ;;
  plt_plot x y "Traditional" "D" ;;
  plt_title "Bandwidth Usage (Message Based)" "bold" 18 ;;
  plt_xlabel "Computing Nodes" 14 "bold" ;;
  plt_ylabel "Bandwidth Usage (Messages)" 14 "bold" ;;
  plt_legend "upper left" 12 ;;
  plt_grid true ;;
  plt_xscale "log" ;;
  plt_yscale "linear" ;;
  inc_nodes <- getitem inc_enabled CompNodes ;;
  trad_nodes <- getitem traditional CompNodes ;;
  let max_comp_nodes := py_max (series_max inc_nodes) (series_max trad_nodes) in
  inc_nodes <- getitem inc_enabled CompNodes ;;
  trad_nodes <- getitem traditional CompNodes ;;
  let min_comp_nodes := py_min (series_min inc_nodes) (series_min trad_nodes) in
  let ticks :=
    np_logspace (np_log10 min_comp_nodes) (np_log10 max_comp_nodes) 10 in
  labels <- lift (tick_labels ticks) ;;
  plt_xticks ticks labels ;;
  plt_tight_layout ;;
  plt_savefig "results/BandwidthUsage_Msg.png" ;;
  plt_close.

Definition plot_bandwidth_usage_byte (inc_enabled traditional : loc) : Py unit :=
  plt_figure (14, 7) ;;
  x <- getitem inc_enabled CompNodes ;;
  y <- getitem inc_enabled BandwidthUsage_Byte ;;
  plt_plot x y "INC-enabled" "o" ;;
  x <- getitem traditional CompNodes ;;
  y <- getitem traditional BandwidthUsage_Byte ;;
  plt_plot x y "Traditional" "D" ;;
  plt_title "Bandwidth Usage" "bold" 18 ;;
  plt_xlabel "Computing Nodes" 14 "bold" ;;
  plt_ylabel "Bandwidth Usage (Bytes)" 14 "bold" ;;
  plt_legend "upper left" 12 ;;
  plt_grid true ;;
  plt_xscale "log" ;;
  plt_yscale "linear" ;;
  inc_nodes <- getitem inc_enabled CompNodes ;;
  trad_nodes <- getitem traditional CompNodes ;;
  let max_comp_nodes := py_max (series_max inc_nodes) (series_max trad_nodes) in
  inc_nodes <- getitem inc_enabled CompNodes ;;
  trad_nodes <- getitem traditional CompNodes ;;
  let min_comp_nodes := py_min (series_min inc_nodes) (series_min trad_nodes) in
  let ticks :=
    np_logspace (np_log10 min_comp_nodes) (np_log10 max_comp_nodes) 10 in
  labels <- lift (tick_labels ticks) ;;
  plt_xticks ticks labels ;;
  plt_tight_layout ;;
  plt_savefig "results/BandwidthUsage_Byte.png" ;;
  plt_close.

Definition plot_compl_time_diff (inc_enabled traditional : loc) : Py unit :=
  plt_figure (14, 7) ;;
  x <- getitem inc_enabled CompNodes ;;
  y <- getitem inc_enabled ComplTimeDiff ;;
  plt_plot x y "INC-enabled" "o" ;;
  x <- getitem traditional CompNodes ;;
  y <- getitem traditional ComplTimeDiff ;;
  plt_plot x y "Traditional" "D" ;;
  plt_title "Completion Time Variation" "bold" 18 ;;
  plt_xlabel "Computing Nodes" 14 "bold" ;;
  plt_ylabel "Max. Completion Time Difference (Ticks)" 14 "bold" ;;
  plt_legend "upper left" 12 ;;
  plt_grid true ;;
  plt_xscale "log" ;;
  plt_yscale "linear" ;;
  inc_nodes <- getitem inc_enabled CompNodes ;;
  trad_nodes <- getitem traditional CompNodes ;;
  let max_comp_nodes := py_max (series_max inc_nodes) (series_max trad_nodes) in
  inc_nodes <- getitem inc_enabled CompNodes ;;
  trad_nodes <- getitem traditional CompNodes ;;
  let min_comp_nodes := py_min (series_min inc_nodes) (series_min trad_nodes) in
  let ticks :=
    np_logspace (np_log10 min_comp_nodes) (np_log10 max_comp_nodes) 10 in
  labels <- lift (tick_labels ticks) ;;
  plt_xticks ticks labels ;;
  plt_tight_layout ;;
  plt_savefig "results/ComplTimeDiff.png" ;;
  plt_close.

(** Lines 90-91: the two cohorts. *)
Definition split (data : loc) : Py (loc * loc) :=
  inc_enabled <- getitem_INC_eq data 1 ;;
  traditional <- getitem_INC_eq data 0 ;;
  ret (inc_enabled, traditional).

Definition visualize_data (csv_file_path : string) : Py unit :=
  found <- os_path_exists csv_file_path ;;
  (if negb found then
     print ("File not found: " +:+ csv_file_path) ;;
     sys_exit 1
   else ret tt) ;;
  data <- pd_read_csv csv_file_path ;;
  cohorts <- split data ;;
  let '(inc_enabled, traditional) := cohorts in
  have_results <- os_path_exists "results" ;;
  (if negb have_results then os_makedirs "results" else ret tt) ;;
  plot_timing_cost inc_enabled traditional ;;
  plot_bandwidth_usage_msg inc_enabled traditional ;;
  plot_bandwidth_usage_byte inc_enabled traditional ;;
  plot_compl_time_diff inc_enabled traditional.

(** The [__main__] block; [argv] is [sys.argv], script name first. *)
Definition main (argv : list string) : Py unit :=
  (if bool_decide (2 < length argv)%nat then
     print "Usage: python plotResults.py [<csv_file_path>]" ;;
     sys_exit 1
   else ret tt) ;;
  let csv_file_path :=
    if bool_decide (length argv = 2%nat)
    then default "result.csv" (argv !! 1%nat)
    else "result.csv" in
  visualize_data csv_file_path.

(** The status the process ends with: [sys.exit(n)] gives [n], any other
    uncaught exception gives 1. *)
Definition exit_status {A} (r : result A) : Z :=
  match r with
  | Ok _ => 0
  | Raise (SystemExit code) => code
  | Raise _ => 1
  end.

(** ** The chart-render operation of the specification

    The specification describes one operation,
    [renderChart(metricName, cohortA, cohortB, title, yLabel, outputFile)],
    of which the four plot functions are instances.  [renderChart] below
    follows that description; the plot functions above are compared
    with it. *)

Record Chart := mkChart {
  metric : ResultRow -> Z;
  chart_title : string;
  chart_ylabel : string;
  output_file : string
}.

Definition renderChart (c : Chart) (cohortA cohortB : loc) : Py unit :=
  plt_figure (14, 7) ;;
  x <- getitem cohortA CompNodes ;;
  y <- getitem cohortA (metric c) ;;
  plt_plot x y "INC-enabled" "o" ;;
  x <- getitem cohortB CompNodes ;;
  y <- getitem cohortB (metric c) ;;
  plt_plot x y "Traditional" "D" ;;
  plt_title (chart_title c) "bold" 18 ;;
  plt_xlabel "Computing Nodes" 14 "bold" ;;
  plt_ylabel (chart_ylabel c) 14 "bold" ;;
  plt_legend "upper left" 12 ;;
  plt_grid true ;;
  plt_xscale "log" ;;
  plt_yscale "linear" ;;
  nodesA <- getitem cohortA CompNodes ;;
  nodesB <- getitem cohortB CompNodes ;;
  let hi := py_max (series_max nodesA) (series_max nodesB) in
  nodesA <- getitem cohortA CompNodes ;;
  nodesB <- getitem cohortB CompNodes ;;
  let lo := py_min (series_min nodesA) (series_min nodesB) in
  let ticks := np_logspace (np_log10 lo) (np_log10 hi) 10 in
  labels <- lift (tick_labels ticks) ;;
  plt_xticks ticks labels ;;
  plt_tight_layout ;;
  plt_savefig (output_file c) ;;
  plt_close.

Definition timing_cost_chart : Chart :=
  mkChart TimingCost "Timing Cost" "Timing Cost (Ticks)"
    "results/TimingCost.png".

Definition bandwidth_usage_msg_chart : Chart :=
  mkChart BandwidthUsage_Msg "Bandwidth Usage (Message Based)"
    "Bandwidth Usage (Messages)" "results/BandwidthUsage_Msg.png".

Definition bandwidth_usage_byte_chart : Chart :=
  mkChart BandwidthUsage_Byte "Bandwidth Usage" "Bandwidth Usage (Bytes)"
    "results/BandwidthUsage_Byte.png".

Definition compl_time_diff_chart : Chart :=
  mkChart ComplTimeDiff "Completion Time Variation"
    "Max. Completion Time Difference (Ticks)" "results/ComplTimeDiff.png".

Definition charts : list Chart :=
  [timing_cost_chart; bandwidth_usage_msg_chart; bandwidth_usage_byte_chart;
   compl_time_diff_chart].

(** The ten ticks as a function of the two [CompNodes] columns. *)
Definition comp_nodes_ticks (nodesA nodesB : list Z) : list float64 :=
  np_logspace
    (np_log10 (py_min (series_min nodesA) (series_min nodesB)))
    (np_log10 (py_max (series_max nodesA) (series_max nodesB)))
    10.

(** The figure as it stands when the ticks are computed. *)
Definition chart_figure (c : Chart) (dfA dfB : DataFrame) : Figure :=
  mkFigure (Some (14, 7))
    [mkLine (column CompNodes dfA) (column (metric c) dfA) "INC-enabled" "o";
     mkLine (column CompNodes dfB) (column (metric c) dfB) "Traditional" "D"]
    (Some (mkText (chart_title c) 18 "bold"))
    (Some (mkText "Computing Nodes" 14 "bold"))
    (Some (mkText (chart_ylabel c) 14 "bold"))
    (Some ("upper left"%string, 12))
    true "log" "linear" None false.

(** The figure that is saved. *)
Definition saved_figure (c : Chart) (dfA dfB : DataFrame)
    (labels : list string) : Figure :=
  set_tight
    (set_xticks (comp_nodes_ticks (column CompNodes dfA) (column CompNodes dfB))
       labels (chart_figure c dfA dfB)).

(** What a render does to the state, case by case. *)
Definition render_outcome (c : Chart) (dfA dfB : DataFrame) (s : state)
    : result unit * state :=
  match tick_labels
          (comp_nodes_ticks (column CompNodes dfA) (column CompNodes dfB)) with
  | Raise e =>
      (Raise e,
       mkState (fs s) (stdout s) (calls s)
         (chart_figure c dfA dfB :: figures s) (heap s))
  | Ok labels =>
      let fig := saved_figure c dfA dfB labels in
      let log' := calls s ++ [CallSavefig (output_file c)] in
      match open_for_write (fs s) (output_file c) with
      | Raise e =>
          (Raise e,
           mkState (fs s) (stdout s) log' (fig :: figures s) (heap s))
      | Ok _ =>
          (Ok tt,
           mkState (<[output_file c := File (Png fig)]> (fs s)) (stdout s)
             log' (figures s) (heap s))
      end
  end.

(** ** Observations used in the statements *)

(** Order on ticks: only finite values compare. *)
Definition f_lt (a b : float64) : Prop :=
  match a, b with
  | Fin x, Fin y => (x < y)%R
  | _, _ => False
  end.

(** The ticks and tick labels of the image stored at [path], if any. *)
Definition png_xticks (s : state) (path : string)
    : option (list float64 * list string) :=
  match fs s !! path with
  | Some (File (Png fig)) => fig_xticks fig
  | _ => None
  end.

(** What [plt.xticks] receives as a function of the two [CompNodes]
    columns: the ticks and their labels, or the exception of the label
    conversion. *)
Definition expected_xticks (nodesA nodesB : list Z)
    : result (option (list float64 * list string)) :=
  match tick_labels (comp_nodes_ticks nodesA nodesB) with
  | Ok labels => Ok (Some (comp_nodes_ticks nodesA nodesB, labels))
  | Raise e => Raise e
  end.

(** What a finished call drew: the ticks of the image at [path], or the
    exception the call ended with. *)
Definition drawn_xticks (run : result unit * state) (path : string)
    : result (option (list float64 * list string)) :=
  match run.1 with
  | Ok _ => Ok (png_xticks run.2 path)
  | Raise e => Raise e
  end.

(** A computation that leaves every frame object as it was. *)
Definition heap_preserving {A} (m : Py A) : Prop :=
  ∀ s, heap (m s).2 = heap s.

(** The state in which [visualize_data] starts to draw, when [path] holds
    the table [df]. *)
Definition loaded (path : string) (df : DataFrame) (s : state) : state :=
  let had := bool_decide (is_Some (fs s !! "results")) in
  mkState
    (if had then fs s else <["results" := Dir]> (fs s))
    (stdout s)
    (calls s ++ [CallExists path; CallReadCsv path; CallExists "results"]
       ++ (if had then [] else [CallMakedirs "results"]))
    (figures s)
    (heap s ++ [df; select_INC 1 df; select_INC 0 df]).

(** The four calls at the end of [visualize_data]. *)
Definition draw_all (inc_enabled traditional : loc) : Py unit :=
  plot_timing_cost inc_enabled traditional ;;
  plot_bandwidth_usage_msg inc_enabled traditional ;;
  plot_bandwidth_usage_byte inc_enabled traditional ;;
  plot_compl_time_diff inc_enabled traditional.

(** A sequence of renders on the same two cohorts; the first failure ends
    it. *)
Fixpoint run_charts (cs : list Chart) (dfA dfB : DataFrame) (s : state)
    : result unit * state :=
  match cs with
  | [] => (Ok tt, s)
  | c :: cs' =>
      match render_outcome c dfA dfB s with
      | (Ok _, s') => run_charts cs' dfA dfB s'
      | (Raise e, s') => (Raise e, s')
      end
  end.

(** The files after the renders of [cs] have been saved with [labels]. *)
Definition save_all (cs : list Chart) (dfA dfB : DataFrame)
    (labels : list string) (m : gmap string node) : gmap string node :=
  foldl (fun m c => <[output_file c := File (Png (saved_figure c dfA dfB labels))]> m)
    m cs.

(** The four plot functions, each with the file it saves to. *)
Definition plots : list ((loc -> loc -> Py unit) * string) :=
  [(plot_timing_cost, "results/TimingCost.png"%string);
   (plot_bandwidth_usage_msg, "results/BandwidthUsage_Msg.png"%string);
   (plot_bandwidth_usage_byte, "results/BandwidthUsage_Byte.png"%string);
   (plot_compl_time_diff, "results/ComplTimeDiff.png"%string)].

(** ** Sample inputs *)

Definition example_inc : DataFrame :=
  [mkRow 10 1 5 3 300 1; mkRow 1000 1 50 30 3000 2].

Definition example_trad : DataFrame :=
  [mkRow 10 0 8 6 600 2; mkRow 1000 0 90 60 6000 4].

(** Both cohorts on the heap and an empty [results] directory. *)
Definition example_state : state :=
  mkState {[ "results"%string := Dir ]} [] [] [] [example_inc; example_trad].

(** The INC-enabled cohort on the heap, next to a traditional cohort
    without rows. *)
Definition example_state_no_trad : state :=
  mkState {[ "results"%string := Dir ]} [] [] [] [example_inc; []].

(** The same with the roles exchanged. *)
Definition example_state_no_inc : state :=
  mkState {[ "results"%string := Dir ]} [] [] [] [[]; example_trad].

(** One row per cohort, both with ten nodes. *)
Definition example_state_single : state :=
  mkState {[ "results"%string := Dir ]} [] [] []
    [[mkRow 10 1 5 3 300 1]; [mkRow 10 0 8 6 600 2]].

(** A table with a row for each cohort and a row whose flag is neither
    0 nor 1. *)
Definition example_data : DataFrame :=
  [mkRow 10 1 5 3 300 1; mkRow 10 0 8 6 600 2; mkRow 10 2 9 9 900 9;
   mkRow 1000 1 50 30 3000 2; mkRow 1000 0 90 60 6000 4].

(** The table on the heap. *)
Definition example_state_data : state :=
  mkState ∅ [] [] [] [example_data].

(** A working directory that holds [result.csv] and nothing else. *)
Definition example_world : state :=
  mkState {[ "result.csv"%string := File (Csv example_data) ]} [] [] [] [].

(** An empty working directory. *)
Definition empty_world : state := mkState ∅ [] [] [] [].

(** ** Further observations and sample inputs *)

(** The rows of a frame whose flag is neither 1 nor 0. *)
Definition other_flags (df : DataFrame) : DataFrame :=
  filter (fun r => INC r ≠ 1 ∧ INC r ≠ 0) df.

(** The range of an int64 column. *)
Definition int64 (z : Z) : Prop := - 2 ^ 63 <= z < 2 ^ 63.

Definition row_int64 (r : ResultRow) : Prop :=
  int64 (CompNodes r) ∧ int64 (INC r) ∧ int64 (TimingCost r) ∧
  int64 (BandwidthUsage_Msg r) ∧ int64 (BandwidthUsage_Byte r) ∧
  int64 (ComplTimeDiff r).

(** The names the script writes under. *)
Definition output_files : list string := map output_file charts.

(** [result.csv] next to a regular file called [results]. *)
Definition world_results_is_file : state :=
  mkState {[ "result.csv"%string := File (Csv example_data);
             "results"%string := File Blob ]} [] [] [] [].

(** A table without a single INC-enabled row. *)
Definition world_no_inc_rows : state :=
  mkState {[ "result.csv"%string := File (Csv example_trad) ]} [] [] [] [].

(** The input path names a directory. *)
Definition world_dir_input : state :=
  mkState {[ "result.csv"%string := Dir ]} [] [] [] [].

(** A directory sits where the second image is to be written. *)
Definition world_blocked_second : state :=
  mkState {[ "result.csv"%string := File (Csv example_data);
             "results"%string := Dir;
             "results/BandwidthUsage_Msg.png"%string := Dir ]} [] [] [] [].

(** An INC-enabled row that reports zero nodes. *)
Definition example_state_zero_nodes : state :=
  mkState {[ "results"%string := Dir ]} [] [] []
    [[mkRow 0 1 5 3 300 1; mkRow 1000 1 50 30 3000 2]; example_trad].

(** * Properties *)

(** ** The definitions on small inputs *)

Example format_thousands_1234567 :
  format_thousands 1234567 = "1,234,567"%string.
Proof. reflexivity. Qed.

Example format_thousands_100 : format_thousands 100 = "100"%string.
Proof. reflexivity. Qed.

Example format_thousands_minus_1000 :
  format_thousands (-1000) = "-1,000"%string.
Proof. reflexivity. Qed.

Example dirname_timing_cost :
  dirname "results/TimingCost.png" = Some "results"%string.
Proof. reflexivity. Qed.

Example dirname_result_csv : dirname "result.csv" = None.
Proof. reflexivity. Qed.

Example series_min_three : series_min [1000; 10; 100] = SInt 10.
Proof. reflexivity. Qed.

Example series_max_three : series_max [10; 1000; 100] = SInt 1000.
Proof. reflexivity. Qed.

Example py_max_nan_second : py_max (SInt 1000) SNaN = SInt 1000.
Proof. reflexivity. Qed.

Example py_max_nan_first : py_max SNaN (SInt 1000) = SNaN.
Proof. reflexivity. Qed.

Example py_min_nan_second : py_min (SInt 10) SNaN = SInt 10.
Proof. reflexivity. Qed.

Example py_min_nan_first : py_min SNaN (SInt 10) = SNaN.
Proof. reflexivity. Qed.

Example select_INC_1_example :
  select_INC 1 example_data = [mkRow 10 1 5 3 300 1; mkRow 1000 1 50 30 3000 2].
Proof. reflexivity. Qed.

Example select_INC_0_example :
  select_INC 0 example_data = [mkRow 10 0 8 6 600 2; mkRow 1000 0 90 60 6000 4].
Proof. reflexivity. Qed.

Example tick_labels_inf : tick_labels [Inf false; NaN] = Raise OverflowError.
Proof. reflexivity. Qed.

(** ** The plot functions as instances of one operation *)


Lemma plot_timing_cost_renderChart :
  plot_timing_cost = renderChart timing_cost_chart.
Proof. reflexivity. Qed.

Lemma plot_bandwidth_usage_msg_renderChart :
  plot_bandwidth_usage_msg = renderChart bandwidth_usage_msg_chart.
Proof. reflexivity. Qed.

Lemma plot_bandwidth_usage_byte_renderChart :
  plot_bandwidth_usage_byte = renderChart bandwidth_usage_byte_chart.
Proof. reflexivity. Qed.

Lemma plot_compl_time_diff_renderChart :
  plot_compl_time_diff = renderChart compl_time_diff_chart.
Proof. reflexivity. Qed.

Ltac py_unfold :=
  cbv beta iota zeta delta
    [bind ret raise lift log set_fs get_fs print sys_exit alloc load getitem
     getitem_INC_eq set_figures get_figures on_gcf plt_gcf plt_figure plt_plot
     plt_title plt_xlabel plt_ylabel plt_legend plt_grid plt_xscale plt_yscale
     plt_xticks plt_tight_layout plt_savefig plt_close
     os_path_exists os_makedirs pd_read_csv negb
     fs stdout calls figures heap].

Lemma renderChart_run (c : Chart) (a b : loc) (dfA dfB : DataFrame) (s : state) :
  heap s !! a = Some dfA ->
  heap s !! b = Some dfB ->
  renderChart c a b s = render_outcome c dfA dfB s.
Proof.
  destruct s as [m out lg figs h]. simpl. intros Ha Hb.
  unfold renderChart, render_outcome, saved_figure, comp_nodes_ticks.
  py_unfold. repeat (first [rewrite Ha | rewrite Hb]; py_unfold).
  destruct (tick_labels _) as [labels|e]; [|reflexivity].
  destruct (open_for_write m (output_file c)) as [[]|e]; reflexivity.
Qed.

(** ** Minimum and maximum of the two columns *)

Section MinMax.

Lemma list_min_Z_le (z : Z) (zs : list Z) (n : Z) :
  n ∈ z :: zs -> list_min_Z z zs <= n.
Proof.
  unfold list_min_Z. induction zs as [|w ws IH]; simpl; intros Hn.
  - apply list_elem_of_singleton in Hn. lia.
  - apply elem_of_cons in Hn as [->|Hn].
    + assert (z ∈ z :: ws) as Hz by left. specialize (IH Hz). lia.
    + apply elem_of_cons in Hn as [->|Hn]; [lia|].
      assert (n ∈ z :: ws) as Hz by (right; exact Hn). specialize (IH Hz). lia.
Qed.

Lemma list_min_Z_elem (z : Z) (zs : list Z) : list_min_Z z zs ∈ z :: zs.
Proof.
  unfold list_min_Z. induction zs as [|w ws IH]; simpl; [left|].
  destruct (Z.min_spec w (foldr Z.min z ws)) as [[_ ->]|[_ ->]].
  - right; left.
  - apply elem_of_cons in IH as [->|IH]; [left|do 2 right; exact IH].
Qed.

Lemma list_max_Z_ge (z : Z) (zs : list Z) (n : Z) :
  n ∈ z :: zs -> n <= list_max_Z z zs.
Proof.
  unfold list_max_Z. induction zs as [|w ws IH]; simpl; intros Hn.
  - apply list_elem_of_singleton in Hn. lia.
  - apply elem_of_cons in Hn as [->|Hn].
    + assert (z ∈ z :: ws) as Hz by left. specialize (IH Hz). lia.
    + apply elem_of_cons in Hn as [->|Hn]; [lia|].
      assert (n ∈ z :: ws) as Hz by (right; exact Hn). specialize (IH Hz). lia.
Qed.

Lemma list_max_Z_elem (z : Z) (zs : list Z) : list_max_Z z zs ∈ z :: zs.
Proof.
  unfold list_max_Z. induction zs as [|w ws IH]; simpl; [left|].
  destruct (Z.max_spec w (foldr Z.max z ws)) as [[_ ->]|[_ ->]].
  - apply elem_of_cons in IH as [->|IH]; [left|do 2 right; exact IH].
  - right; left.
Qed.

Variables (nodesA nodesB : list Z) (lo hi : Z).
Hypothesis nonemptyA : nodesA ≠ [].
Hypothesis bounds : ∀ n, n ∈ nodesA ++ nodesB -> lo <= n <= hi.
Hypothesis lo_attained : lo ∈ nodesA ++ nodesB.
Hypothesis hi_attained : hi ∈ nodesA ++ nodesB.

Lemma combined_min : py_min (series_min nodesA) (series_min nodesB) = SInt lo.
Proof using nonemptyA bounds lo_attained.
  clear hi_attained.
  destruct nodesA as [|z zs]; [done|]. clear nonemptyA.
  pose proof (list_min_Z_elem z zs) as HinA.
  pose proof (list_min_Z_le z zs) as HleA.
  destruct nodesB as [|w ws]; simpl.
  - unfold py_min; simpl. f_equal.
    rewrite app_nil_r in *.
    specialize (HleA _ lo_attained). specialize (bounds _ HinA). lia.
  - pose proof (list_min_Z_elem w ws) as HinB.
    pose proof (list_min_Z_le w ws) as HleB.
    assert (lo <= list_min_Z z zs) by (apply bounds, elem_of_app; by left).
    assert (lo <= list_min_Z w ws) by (apply bounds, elem_of_app; by right).
    assert (list_min_Z z zs <= lo ∨ list_min_Z w ws <= lo) as Hlo.
    { apply elem_of_app in lo_attained as [?|?]; [left|right]; auto. }
    unfold py_min, scalar_lt, scalar_gt.
    case_bool_decide; f_equal; lia.
Qed.

Lemma combined_max : py_max (series_max nodesA) (series_max nodesB) = SInt hi.
Proof using nonemptyA bounds hi_attained.
  clear lo_attained.
  destruct nodesA as [|z zs]; [done|]. clear nonemptyA.
  pose proof (list_max_Z_elem z zs) as HinA.
  pose proof (list_max_Z_ge z zs) as HgeA.
  destruct nodesB as [|w ws]; simpl.
  - unfold py_max; simpl. f_equal.
    rewrite app_nil_r in *.
    specialize (HgeA _ hi_attained). specialize (bounds _ HinA). lia.
  - pose proof (list_max_Z_elem w ws) as HinB.
    pose proof (list_max_Z_ge w ws) as HgeB.
    assert (list_max_Z z zs <= hi) by (apply bounds, elem_of_app; by left).
    assert (list_max_Z w ws <= hi) by (apply bounds, elem_of_app; by right).
    assert (hi <= list_max_Z z zs ∨ hi <= list_max_Z w ws) as Hhi.
    { apply elem_of_app in hi_attained as [?|?]; [left|right]; auto. }
    unfold py_max, scalar_gt.
    case_bool_decide; f_equal; lia.
Qed.

End MinMax.

(** ** The tick sequence on finite end points *)

Local Open Scope R_scope.

(** [linspace] between two finite values: nine evenly spaced points and
    the end point itself. *)
Lemma np_linspace_fin (x y : R) :
  np_linspace (Fin x) (Fin y) 10 =
  map (fun i => Fin (x + INR i * (y - x) / 9)) (seq 0 9) ++ [Fin y].
Proof.
  unfold np_linspace, np_arange, set_last.
  rewrite !bool_decide_eq_true_2 by (simpl; lia).
  destruct (f_is_zero _); simpl.
  all: unfold R_zero.
  all: repeat (f_equal; try lra).
Qed.

Lemma np_logspace_fin (x y : R) :
  np_logspace (Fin x) (Fin y) 10 =
  map (fun i => Fin (Rpower 10 (x + INR i * (y - x) / 9))) (seq 0 10).
Proof.
  unfold np_logspace. rewrite np_linspace_fin.
  change (seq 0 10) with (seq 0 9 ++ [9%nat]).
  rewrite !map_app, map_map. f_equal.
  simpl. do 3 f_equal. lra.
Qed.

Lemma ln_10_pos : 0 < ln 10.
Proof. rewrite <- ln_1. apply ln_increasing; lra. Qed.

Lemma np_log10_pos (z : Z) :
  (0 < z)%Z -> np_log10 (SInt z) = Fin (ln (IZR z) / ln 10).
Proof. intros Hz. unfold np_log10. by rewrite bool_decide_eq_true_2. Qed.

Lemma Rpower_10_log10 (v : R) : 0 < v -> Rpower 10 (ln v / ln 10) = v.
Proof.
  intros Hv. unfold Rpower.
  replace (ln v / ln 10 * ln 10) with (ln v).
  - by apply exp_ln.
  - pose proof ln_10_pos. field. lra.
Qed.

(** Finite ticks always convert to labels. *)
Lemma tick_labels_fin (rs : list R) :
  tick_labels (map Fin rs) = Ok (map (fun r => format_thousands (R_trunc r)) rs).
Proof.
  induction rs as [|r rs IH]; simpl; [done|]. by rewrite IH.
Qed.

(** A [nan] among the ticks, with no infinity before it, is a [ValueError]. *)
Lemma tick_labels_nan (ticks : list float64) :
  tick_labels (NaN :: ticks) = Raise ValueError.
Proof. reflexivity. Qed.

(** With a positive smallest and largest node count the ticks are the
    powers of ten between them. *)
Lemma comp_nodes_ticks_pos (nodesA nodesB : list Z) (lo hi : Z) :
  (0 < lo)%Z -> (0 < hi)%Z ->
  py_min (series_min nodesA) (series_min nodesB) = SInt lo ->
  py_max (series_max nodesA) (series_max nodesB) = SInt hi ->
  comp_nodes_ticks nodesA nodesB =
  map Fin
    (map (fun i => Rpower 10 (ln (IZR lo) / ln 10
            + INR i * (ln (IZR hi) / ln 10 - ln (IZR lo) / ln 10) / 9))
       (seq 0 10)).
Proof.
  intros Hlo Hhi Hmin Hmax. unfold comp_nodes_ticks.
  rewrite Hmin, Hmax, !np_log10_pos by done.
  rewrite np_logspace_fin. by rewrite map_map.
Qed.

Lemma log10_10 : ln 10 / ln 10 = 1.
Proof. pose proof ln_10_pos. field. lra. Qed.

Lemma log10_1000 : ln 1000 / ln 10 = 3.
Proof.
  pose proof ln_10_pos.
  replace 1000 with (10 ^ 3) by (simpl; lra).
  rewrite ln_pow by lra. simpl. field. lra.
Qed.

Lemma Rpower_10_3 : Rpower 10 3 = 1000.
Proof.
  replace 3 with (INR 3) by (simpl; lra).
  rewrite Rpower_pow by lra. simpl. lra.
Qed.

(** The ten ticks between 10 and 1000. *)
Lemma ticks_between_10_and_1000 (nodesA nodesB : list Z) :
  nodesA ≠ [] ->
  (∀ n, n ∈ nodesA ++ nodesB -> (10 <= n <= 1000)%Z) ->
  10%Z ∈ nodesA ++ nodesB ->
  1000%Z ∈ nodesA ++ nodesB ->
  comp_nodes_ticks nodesA nodesB =
  map (fun i => Fin (Rpower 10 (1 + 2 * INR i / 9))) (seq 0 10).
Proof.
  intros HA Hb Hlo Hhi.
  rewrite (comp_nodes_ticks_pos nodesA nodesB 10 1000); try lia.
  - rewrite log10_10, log10_1000, map_map.
    apply map_ext. intros i. do 2 f_equal. lra.
  - by apply combined_min with (hi := 1000%Z).
  - by apply combined_max with (lo := 10%Z).
Qed.

Lemma powers_of_ten_increasing :
  StronglySorted f_lt
    (map (fun i => Fin (Rpower 10 (1 + 2 * INR i / 9))) (seq 0 10)).
Proof.
  cbn [map seq].
  repeat first [apply SSorted_cons | apply SSorted_nil
               | apply List.Forall_cons | apply List.Forall_nil].
  all: cbn [f_lt INR]; apply Rpower_lt; lra.
Qed.

(** The outcome of a render whose ticks are all finite and whose output
    file can be opened. *)
Lemma renderChart_finite_ticks (c : Chart) (a b : loc) (dfA dfB : DataFrame)
    (s : state) (rs : list R) :
  heap s !! a = Some dfA ->
  heap s !! b = Some dfB ->
  comp_nodes_ticks (column CompNodes dfA) (column CompNodes dfB) = map Fin rs ->
  open_for_write (fs s) (output_file c) = Ok tt ->
  let labels := map (fun r => format_thousands (R_trunc r)) rs in
  renderChart c a b s =
  (Ok tt,
   mkState (<[output_file c := File (Png (saved_figure c dfA dfB labels))]> (fs s))
     (stdout s) (calls s ++ [CallSavefig (output_file c)]) (figures s) (heap s)).
Proof.
  intros Ha Hb Hticks Hopen labels.
  rewrite (renderChart_run c a b dfA dfB s Ha Hb).
  unfold render_outcome. rewrite Hticks, tick_labels_fin, Hopen. reflexivity.
Qed.

Lemma png_xticks_saved (c : Chart) (dfA dfB : DataFrame) (labels : list string)
    (m : gmap string node) (out : list string) (lg : list call)
    (figs : list Figure) (h : list DataFrame) :
  png_xticks
    (mkState (<[output_file c := File (Png (saved_figure c dfA dfB labels))]> m)
       out lg figs h) (output_file c) =
  Some (comp_nodes_ticks (column CompNodes dfA) (column CompNodes dfB), labels).
Proof. unfold png_xticks. cbn [fs]. by rewrite lookup_insert_eq. Qed.

(** C2, as the code has it: when the INC-enabled cohort has at least one
    row and the node counts of the two cohorts together range from 10 to
    1000, the figure that [plot_timing_cost] saves carries exactly ten
    ticks, strictly increasing, the first one 10 and the last one 1000;
    they are log-spaced, being the powers of ten of ten evenly spaced
    exponents from [log10 10 = 1] to [log10 1000 = 3], that is
    [logspace(1, 3, 10)].  The output file can be opened. *)
Theorem ticks_span_10_to_1000 (s : state) (a b : loc) (dfA dfB : DataFrame) :
  heap s !! a = Some dfA ->
  heap s !! b = Some dfB ->
  dfA ≠ [] ->
  (∀ n, n ∈ column CompNodes dfA ++ column CompNodes dfB -> (10 <= n <= 1000)%Z) ->
  10%Z ∈ column CompNodes dfA ++ column CompNodes dfB ->
  1000%Z ∈ column CompNodes dfA ++ column CompNodes dfB ->
  open_for_write (fs s) "results/TimingCost.png" = Ok tt ->
  ∃ ticks labels,
    (plot_timing_cost a b s).1 = Ok tt ∧
    png_xticks (plot_timing_cost a b s).2 "results/TimingCost.png"
      = Some (ticks, labels) ∧
    length ticks = 10%nat ∧
    StronglySorted f_lt ticks ∧
    ticks !! 0%nat = Some (Fin 10) ∧
    ticks !! 9%nat = Some (Fin 1000) ∧
    np_log10 (SInt 10) = Fin 1 ∧
    np_log10 (SInt 1000) = Fin 3 ∧
    ticks = np_logspace (Fin 1) (Fin 3) 10.
Proof.
  intros Ha Hb HA Hbounds Hlo Hhi Hopen.
  assert (column CompNodes dfA ≠ []) as HA' by (by destruct dfA).
  pose proof (ticks_between_10_and_1000 _ _ HA' Hbounds Hlo Hhi) as Hticks.
  rewrite <- (map_map _ Fin) in Hticks.
  rewrite plot_timing_cost_renderChart.
  rewrite (renderChart_finite_ticks timing_cost_chart a b dfA dfB s _
             Ha Hb Hticks Hopen).
  eexists _, _. split; [reflexivity|]. split.
  { cbn [snd]. apply png_xticks_saved. }
  rewrite Hticks, map_map.
  split; [by rewrite length_map, length_seq|].
  split; [apply powers_of_ten_increasing|].
  split; [|split; [|split; [|split]]].
  - cbn [map seq lookup list_lookup INR]. do 2 f_equal.
    replace (1 + 2 * 0 / 9) with 1 by lra. apply Rpower_1; lra.
  - cbn [map seq lookup list_lookup INR]. do 2 f_equal.
    rewrite <- Rpower_10_3. f_equal. lra.
  - rewrite np_log10_pos by lia. f_equal. apply log10_10.
  - rewrite np_log10_pos by lia. f_equal. apply log10_1000.
  - rewrite np_logspace_fin. apply map_ext. intros i. do 2 f_equal. lra.
Qed.

Lemma ticks_span_10_to_1000_witness :
  ∃ ticks labels,
    (plot_timing_cost 0 1 example_state).1 = Ok tt ∧
    png_xticks (plot_timing_cost 0 1 example_state).2 "results/TimingCost.png"
      = Some (ticks, labels) ∧
    length ticks = 10%nat ∧
    StronglySorted f_lt ticks ∧
    ticks !! 0%nat = Some (Fin 10) ∧
    ticks !! 9%nat = Some (Fin 1000) ∧
    np_log10 (SInt 10) = Fin 1 ∧
    np_log10 (SInt 1000) = Fin 3 ∧
    ticks = np_logspace (Fin 1) (Fin 3) 10.
Proof.
  apply (ticks_span_10_to_1000 example_state 0 1 example_inc example_trad).
  - reflexivity.
  - reflexivity.
  - discriminate.
  - intros n Hn. vm_compute in Hn.
    repeat (apply elem_of_cons in Hn as [->|Hn]; [lia|]).
    by apply elem_of_nil in Hn.
  - left.
  - right. left.
  - vm_compute. reflexivity.
Defined.

(** ** Degenerate cohorts *)

Lemma py_min_nan_l (x : scalar) : py_min SNaN x = SNaN.
Proof. by destruct x. Qed.

Lemma py_max_nan_l (x : scalar) : py_max SNaN x = SNaN.
Proof. by destruct x. Qed.

Lemma py_min_nan_r (x : scalar) : py_min x SNaN = x.
Proof. by destruct x. Qed.

Lemma py_max_nan_r (x : scalar) : py_max x SNaN = x.
Proof. by destruct x. Qed.

Lemma np_logspace_nan : np_logspace NaN NaN 10 = replicate 10 NaN.
Proof.
  unfold np_logspace, np_linspace, np_arange, set_last.
  rewrite !bool_decide_eq_true_2 by (cbn; lia).
  reflexivity.
Qed.

(** Without a row in the INC-enabled cohort every tick is [nan]. *)
Lemma comp_nodes_ticks_empty_inc (nodesB : list Z) :
  comp_nodes_ticks [] nodesB = replicate 10 NaN.
Proof.
  unfold comp_nodes_ticks. cbn [series_min series_max].
  rewrite py_min_nan_l, py_max_nan_l. apply np_logspace_nan.
Qed.

(** Without a row in the traditional cohort the ticks are those of the
    INC-enabled cohort alone. *)
Lemma comp_nodes_ticks_empty_trad (nodesA : list Z) :
  comp_nodes_ticks nodesA [] =
  np_logspace (np_log10 (series_min nodesA)) (np_log10 (series_max nodesA)) 10.
Proof.
  unfold comp_nodes_ticks. cbn [series_min series_max].
  by rewrite py_min_nan_r, py_max_nan_r.
Qed.

Lemma renderChart_empty_inc (c : Chart) (a b : loc) (dfB : DataFrame) (s : state) :
  heap s !! a = Some [] ->
  heap s !! b = Some dfB ->
  renderChart c a b s =
  (Raise ValueError,
   mkState (fs s) (stdout s) (calls s) (chart_figure c [] dfB :: figures s)
     (heap s)).
Proof.
  intros Ha Hb. rewrite (renderChart_run c a b [] dfB s Ha Hb).
  unfold render_outcome. cbn [column map].
  by rewrite comp_nodes_ticks_empty_inc.
Qed.

(** C2 as it is worded fails: node counts that range from 10 to 1000 do
    not give ticks when they all sit in the traditional cohort; the call
    ends in a [ValueError] and saves nothing. *)
Lemma ticks_need_inc_row :
  ¬ (∀ (s : state) (a b : loc) (dfA dfB : DataFrame),
       heap s !! a = Some dfA ->
       heap s !! b = Some dfB ->
       (∀ n, n ∈ column CompNodes dfA ++ column CompNodes dfB ->
             (10 <= n <= 1000)%Z) ->
       10%Z ∈ column CompNodes dfA ++ column CompNodes dfB ->
       1000%Z ∈ column CompNodes dfA ++ column CompNodes dfB ->
       open_for_write (fs s) "results/TimingCost.png" = Ok tt ->
       ∃ ticks labels,
         (plot_timing_cost a b s).1 = Ok tt ∧
         png_xticks (plot_timing_cost a b s).2 "results/TimingCost.png"
           = Some (ticks, labels) ∧
         length ticks = 10%nat ∧
         StronglySorted f_lt ticks ∧
         ticks !! 0%nat = Some (Fin 10) ∧
         ticks !! 9%nat = Some (Fin 1000)).
Proof.
  assert (∀ n, n ∈ column CompNodes [] ++ column CompNodes example_trad ->
               (10 <= n <= 1000)%Z) as Hbounds.
  { intros n Hn. vm_compute in Hn.
    repeat (apply elem_of_cons in Hn as [->|Hn]; [lia|]).
    by apply elem_of_nil in Hn. }
  assert (open_for_write (fs example_state_no_inc) "results/TimingCost.png"
          = Ok tt) as Hopen by (vm_compute; reflexivity).
  assert ((plot_timing_cost 0 1 example_state_no_inc).1 = Raise ValueError)
    as Hraise.
  { rewrite plot_timing_cost_renderChart.
    by rewrite (renderChart_empty_inc timing_cost_chart 0 1 example_trad
                  example_state_no_inc eq_refl eq_refl). }
  intros Hworded.
  pose proof (Hworded example_state_no_inc 0%nat 1%nat [] example_trad
                eq_refl eq_refl Hbounds) as Hbad.
  clear Hworded.
  destruct Hbad as (ticks & labels & Hok & _); [left|right; left|exact Hopen|].
  rewrite Hraise in Hok. discriminate Hok.
Qed.

Ltac elem_cases H :=
  let H' := fresh in
  pose proof (proj1 (elem_of_cons _ _ _) H) as H'; clear H;
  destruct H' as [H|H].

Lemma plots_renderChart (f : loc -> loc -> Py unit) (path : string) :
  (f, path) ∈ plots ->
  ∃ c, c ∈ charts ∧ f = renderChart c ∧ path = output_file c.
Proof.
  unfold plots, charts. intros Hf.
  elem_cases Hf.
  { injection Hf as -> ->. exists timing_cost_chart.
    split; [|split; reflexivity]. apply list_elem_of_here. }
  elem_cases Hf.
  { injection Hf as -> ->. exists bandwidth_usage_msg_chart.
    split; [|split; reflexivity]. do 1 apply list_elem_of_further.
    apply list_elem_of_here. }
  elem_cases Hf.
  { injection Hf as -> ->. exists bandwidth_usage_byte_chart.
    split; [|split; reflexivity]. do 2 apply list_elem_of_further.
    apply list_elem_of_here. }
  elem_cases Hf.
  { injection Hf as -> ->. exists compl_time_diff_chart.
    split; [|split; reflexivity]. do 3 apply list_elem_of_further.
    apply list_elem_of_here. }
  by apply elem_of_nil in Hf.
Qed.

Lemma plot_timing_cost_in_plots :
  (plot_timing_cost, "results/TimingCost.png"%string) ∈ plots.
Proof. unfold plots. apply list_elem_of_here. Qed.

Lemma combined_min_elem (nodesA nodesB : list Z) :
  nodesA ≠ [] ->
  ∃ m, py_min (series_min nodesA) (series_min nodesB) = SInt m
       ∧ m ∈ nodesA ++ nodesB.
Proof.
  destruct nodesA as [|z zs]; [done|]. intros _.
  pose proof (list_min_Z_elem z zs) as HinA.
  destruct nodesB as [|w ws]; cbn [series_min].
  - rewrite py_min_nan_r. eexists; split; [done|]. by rewrite app_nil_r.
  - pose proof (list_min_Z_elem w ws) as HinB.
    unfold py_min, scalar_lt, scalar_gt. case_bool_decide.
    + eexists; split; [done|]. apply elem_of_app. by right.
    + eexists; split; [done|]. apply elem_of_app. by left.
Qed.

Lemma combined_max_elem (nodesA nodesB : list Z) :
  nodesA ≠ [] ->
  ∃ m, py_max (series_max nodesA) (series_max nodesB) = SInt m
       ∧ m ∈ nodesA ++ nodesB.
Proof.
  destruct nodesA as [|z zs]; [done|]. intros _.
  pose proof (list_max_Z_elem z zs) as HinA.
  destruct nodesB as [|w ws]; cbn [series_max].
  - rewrite py_max_nan_r. eexists; split; [done|]. by rewrite app_nil_r.
  - pose proof (list_max_Z_elem w ws) as HinB.
    unfold py_max, scalar_gt. case_bool_decide.
    + eexists; split; [done|]. apply elem_of_app. by right.
    + eexists; split; [done|]. apply elem_of_app. by left.
Qed.

(** Positive node counts and a row in the INC-enabled cohort give ten
    finite ticks. *)
Lemma comp_nodes_ticks_finite (nodesA nodesB : list Z) :
  nodesA ≠ [] ->
  (∀ n, n ∈ nodesA ++ nodesB -> (0 < n)%Z) ->
  ∃ rs, comp_nodes_ticks nodesA nodesB = map Fin rs ∧ length rs = 10%nat.
Proof.
  intros HA Hpos.
  destruct (combined_min_elem nodesA nodesB HA) as (lo & Hlo & Hlo_in).
  destruct (combined_max_elem nodesA nodesB HA) as (hi & Hhi & Hhi_in).
  eexists. split.
  - apply (comp_nodes_ticks_pos nodesA nodesB lo hi); auto.
  - by rewrite length_map, length_seq.
Qed.

Lemma renderChart_succeeds (c : Chart) (a b : loc) (dfA dfB : DataFrame)
    (s : state) :
  heap s !! a = Some dfA ->
  heap s !! b = Some dfB ->
  dfA ≠ [] ->
  (∀ n, n ∈ column CompNodes dfA ++ column CompNodes dfB -> (0 < n)%Z) ->
  open_for_write (fs s) (output_file c) = Ok tt ->
  (renderChart c a b s).1 = Ok tt.
Proof.
  intros Ha Hb HA Hpos Hopen.
  assert (column CompNodes dfA ≠ []) as HA' by (by destruct dfA).
  destruct (comp_nodes_ticks_finite _ _ HA' Hpos) as (rs & Hrs & _).
  by rewrite (renderChart_finite_ticks c a b dfA dfB s rs Ha Hb Hrs Hopen).
Qed.

Lemma open_for_write_no_value_error (m : gmap string node) (path : string) :
  open_for_write m path ≠ Raise ValueError.
Proof.
  unfold open_for_write.
  destruct (dirname path) as [d|].
  - destruct (m !! d) as [[|c]|]; [|discriminate..].
    destruct (m !! path) as [[|c]|]; discriminate.
  - destruct (m !! path) as [[|c]|]; discriminate.
Qed.

(** C3, as the code has it: when the INC-enabled cohort has no row, the
    minimum and the maximum are [nan], the ten ticks are all [nan], and
    their conversion to labels fails with a [ValueError]; each of the four
    plot functions ends in that [ValueError], whatever the traditional
    cohort holds, before anything is saved.  A traditional cohort without
    rows is no error of the tick computation: the ticks are then computed
    from the minimum and the maximum of the INC-enabled cohort alone; with
    a row and positive node counts in that cohort no [ValueError] is
    raised, and if the output file can be opened the call returns and
    saves those ticks. *)
Theorem empty_inc_cohort_raises (f : loc -> loc -> Py unit) (path : string)
    (s : state) (a b : loc) (df : DataFrame) :
  (f, path) ∈ plots ->
  (heap s !! a = Some [] -> heap s !! b = Some df ->
   comp_nodes_ticks (column CompNodes []) (column CompNodes df)
     = replicate 10 NaN ∧
   expected_xticks (column CompNodes []) (column CompNodes df)
     = Raise ValueError ∧
   (f a b s).1 = Raise ValueError ∧
   fs (f a b s).2 = fs s ∧ calls (f a b s).2 = calls s) ∧
  (heap s !! a = Some df -> heap s !! b = Some [] ->
   comp_nodes_ticks (column CompNodes df) (column CompNodes []) =
     np_logspace (np_log10 (series_min (column CompNodes df)))
       (np_log10 (series_max (column CompNodes df))) 10 ∧
   (df ≠ [] ->
    (∀ n, n ∈ column CompNodes df -> (0 < n)%Z) ->
    (f a b s).1 ≠ Raise ValueError ∧
    (open_for_write (fs s) path = Ok tt ->
     (f a b s).1 = Ok tt ∧
     ∃ labels,
       png_xticks (f a b s).2 path =
       Some (comp_nodes_ticks (column CompNodes df) (column CompNodes []),
             labels)))).
Proof.
  intros Hf. destruct (plots_renderChart f path Hf) as (c & _ & -> & ->).
  split.
  - intros Ha Hb.
    split; [apply comp_nodes_ticks_empty_inc|].
    split; [unfold expected_xticks; by rewrite comp_nodes_ticks_empty_inc|].
    by rewrite (renderChart_empty_inc c a b df s Ha Hb).
  - intros Ha Hb.
    split; [apply comp_nodes_ticks_empty_trad|].
    intros Hne Hpos.
    assert (column CompNodes df ≠ []) as HA by (by destruct df).
    destruct (comp_nodes_ticks_finite (column CompNodes df) (column CompNodes []) HA)
      as (rs & Hrs & _).
    { intros n Hn. cbn [column map] in Hn. rewrite app_nil_r in Hn. auto. }
    split.
    + rewrite (renderChart_run c a b df [] s Ha Hb). unfold render_outcome.
      rewrite Hrs, tick_labels_fin. cbn zeta.
      pose proof (open_for_write_no_value_error (fs s) (output_file c)) as Hne'.
      destruct (open_for_write (fs s) (output_file c)) as [[]|e]; cbn [fst].
      * discriminate.
      * intros [= ->]. by apply Hne'.
    + intros Hopen.
      rewrite (renderChart_finite_ticks c a b df [] s rs Ha Hb Hrs Hopen).
      split; [reflexivity|]. eexists. cbn [snd]. apply png_xticks_saved.
Qed.

Lemma empty_inc_cohort_raises_witness :
  (comp_nodes_ticks (column CompNodes []) (column CompNodes example_trad)
     = replicate 10 NaN ∧
   expected_xticks (column CompNodes []) (column CompNodes example_trad)
     = Raise ValueError ∧
   (plot_timing_cost 0 1 example_state_no_inc).1 = Raise ValueError ∧
   fs (plot_timing_cost 0 1 example_state_no_inc).2 = fs example_state_no_inc ∧
   calls (plot_timing_cost 0 1 example_state_no_inc).2
     = calls example_state_no_inc) ∧
  (plot_timing_cost 0 1 example_state_no_trad).1 ≠ Raise ValueError ∧
  (plot_timing_cost 0 1 example_state_no_trad).1 = Ok tt.
Proof.
  split.
  - apply (empty_inc_cohort_raises plot_timing_cost "results/TimingCost.png"
             example_state_no_inc 0 1 example_trad).
    + apply plot_timing_cost_in_plots.
    + reflexivity.
    + reflexivity.
  - assert (example_inc ≠ []) as Hne by discriminate.
    assert (∀ n, n ∈ column CompNodes example_inc -> (0 < n)%Z) as Hpos.
    { intros n Hn. vm_compute in Hn.
      repeat (apply elem_of_cons in Hn as [->|Hn]; [lia|]).
      by apply elem_of_nil in Hn. }
    assert (open_for_write (fs example_state_no_trad) "results/TimingCost.png"
            = Ok tt) as Hopen by (vm_compute; reflexivity).
    destruct (empty_inc_cohort_raises plot_timing_cost "results/TimingCost.png"
                example_state_no_trad 0 1 example_inc
                plot_timing_cost_in_plots) as [_ Htrad].
    destruct (Htrad eq_refl eq_refl) as [_ Hrun].
    destruct (Hrun Hne Hpos) as [Hnot Hsaves].
    split; [exact Hnot|]. exact (proj1 (Hsaves Hopen)).
Defined.

(** C3 as it is worded fails: a traditional cohort without rows is drawn
    without any error. *)
Lemma empty_trad_cohort_renders :
  ¬ (∀ (s : state) (a b : loc) (dfA dfB : DataFrame),
       heap s !! a = Some dfA ->
       heap s !! b = Some dfB ->
       dfA = [] ∨ dfB = [] ->
       (plot_timing_cost a b s).1 = Raise ValueError).
Proof.
  assert ((plot_timing_cost 0 1 example_state_no_trad).1 = Ok tt) as Hok.
  { rewrite plot_timing_cost_renderChart.
    apply (renderChart_succeeds timing_cost_chart 0 1 example_inc []
             example_state_no_trad).
    - reflexivity.
    - reflexivity.
    - discriminate.
    - intros n Hn. vm_compute in Hn.
      repeat (apply elem_of_cons in Hn as [->|Hn]; [lia|]).
      by apply elem_of_nil in Hn.
    - vm_compute. reflexivity. }
  intros Hclaim.
  pose proof (Hclaim example_state_no_trad 0%nat 1%nat example_inc []
                eq_refl eq_refl (or_intror eq_refl)) as Hbad.
  clear Hclaim. rewrite Hok in Hbad. discriminate Hbad.
Qed.

(** ** One tick computation for the four charts *)

Lemma renderChart_drawn_xticks (c : Chart) (a b : loc) (dfA dfB : DataFrame)
    (s : state) :
  heap s !! a = Some dfA ->
  heap s !! b = Some dfB ->
  open_for_write (fs s) (output_file c) = Ok tt ->
  drawn_xticks (renderChart c a b s) (output_file c) =
  expected_xticks (column CompNodes dfA) (column CompNodes dfB).
Proof.
  intros Ha Hb Hopen. rewrite (renderChart_run c a b dfA dfB s Ha Hb).
  unfold render_outcome, expected_xticks, drawn_xticks.
  destruct (tick_labels _) as [labels|e]; [|reflexivity].
  rewrite Hopen. cbn [fst snd]. by rewrite png_xticks_saved.
Qed.

(** C8: any two of the four plot functions, run on the same two cohorts,
    draw the same ticks and tick labels (or end in the same exception of
    the tick computation), and what they draw is a function of the two
    [CompNodes] columns alone: the metric does not enter.  The output files
    can be opened. *)
Theorem renders_share_ticks (f g : loc -> loc -> Py unit) (pf pg : string)
    (s : state) (a b : loc) (dfA dfB : DataFrame) :
  (f, pf) ∈ plots ->
  (g, pg) ∈ plots ->
  heap s !! a = Some dfA ->
  heap s !! b = Some dfB ->
  open_for_write (fs s) pf = Ok tt ->
  open_for_write (fs s) pg = Ok tt ->
  drawn_xticks (f a b s) pf = drawn_xticks (g a b s) pg ∧
  drawn_xticks (f a b s) pf =
    expected_xticks (column CompNodes dfA) (column CompNodes dfB).
Proof.
  intros Hf Hg Ha Hb Hpf Hpg.
  destruct (plots_renderChart f pf Hf) as (cf & _ & -> & ->).
  destruct (plots_renderChart g pg Hg) as (cg & _ & -> & ->).
  rewrite (renderChart_drawn_xticks cf a b dfA dfB s Ha Hb Hpf).
  rewrite (renderChart_drawn_xticks cg a b dfA dfB s Ha Hb Hpg).
  split; reflexivity.
Qed.

Lemma plot_compl_time_diff_in_plots :
  (plot_compl_time_diff, "results/ComplTimeDiff.png"%string) ∈ plots.
Proof. unfold plots. do 3 apply list_elem_of_further. apply list_elem_of_here. Qed.

Lemma renders_share_ticks_witness :
  drawn_xticks (plot_timing_cost 0 1 example_state) "results/TimingCost.png" =
    drawn_xticks (plot_compl_time_diff 0 1 example_state)
      "results/ComplTimeDiff.png" ∧
  drawn_xticks (plot_timing_cost 0 1 example_state) "results/TimingCost.png" =
    expected_xticks (column CompNodes example_inc) (column CompNodes example_trad).
Proof.
  apply (renders_share_ticks plot_timing_cost plot_compl_time_diff
           "results/TimingCost.png" "results/ComplTimeDiff.png"
           example_state 0 1 example_inc example_trad).
  - apply plot_timing_cost_in_plots.
  - apply plot_compl_time_diff_in_plots.
  - reflexivity.
  - reflexivity.
  - vm_compute. reflexivity.
  - vm_compute. reflexivity.
Defined.

(** ** A single node count *)

Lemma replicate_not_increasing (x : float64) (n : nat) :
  ¬ StronglySorted f_lt (replicate (S (S n)) x).
Proof.
  cbn [replicate]. intros Hs.
  apply StronglySorted_inv in Hs as [_ Hall].
  apply Forall_inv in Hall.
  destruct x; cbn [f_lt] in Hall; try done. lra.
Qed.

(** ** The two cohorts *)

Lemma select_INC_spec (v : Z) (df : DataFrame) (r : ResultRow) :
  r ∈ select_INC v df <-> r ∈ df ∧ INC r = v.
Proof. unfold select_INC. rewrite list_elem_of_filter. tauto. Qed.

Lemma split_run (data : loc) (df : DataFrame) (s : state) :
  heap s !! data = Some df ->
  split data s =
  (Ok (length (heap s), S (length (heap s))),
   mkState (fs s) (stdout s) (calls s) (figures s)
     (heap s ++ [select_INC 1 df; select_INC 0 df])).
Proof.
  destruct s as [m out lg figs h]. cbn [heap fs stdout calls figures].
  intros Hdata. unfold split, getitem_INC_eq. py_unfold.
  rewrite Hdata. py_unfold.
  rewrite (lookup_app_l_Some _ _ _ _ Hdata). py_unfold.
  rewrite length_app, <- app_assoc. cbn [length app].
  by rewrite Nat.add_1_r.
Qed.

(** C1: [split] never fails on a frame; the INC-enabled cohort holds
    exactly the rows of the frame with [INC = 1] and the traditional cohort
    exactly those with [INC = 0], each in file order, so both are made of
    rows of the frame, no row is in both, and a row of the frame that is in
    neither has an [INC] other than 0 and 1.  The frame itself stays as it
    was. *)
Theorem split_partitions (data : loc) (df : DataFrame) (s : state) :
  heap s !! data = Some df ->
  ∃ inc_enabled traditional s' cohortA cohortB,
    split data s = (Ok (inc_enabled, traditional), s') ∧
    heap s' !! inc_enabled = Some cohortA ∧
    heap s' !! traditional = Some cohortB ∧
    heap s' !! data = Some df ∧
    (∀ r, r ∈ cohortA ∨ r ∈ cohortB -> r ∈ df) ∧
    (∀ r, ¬ (r ∈ cohortA ∧ r ∈ cohortB)) ∧
    (∀ r, r ∈ df -> r ∉ cohortA -> r ∉ cohortB -> INC r ≠ 0%Z ∧ INC r ≠ 1%Z) ∧
    (∀ r, r ∈ cohortA <-> r ∈ df ∧ INC r = 1%Z) ∧
    (∀ r, r ∈ cohortB <-> r ∈ df ∧ INC r = 0%Z) ∧
    sublist cohortA df ∧ sublist cohortB df.
Proof.
  intros Hdata.
  exists (length (heap s)), (S (length (heap s))).
  eexists _, (select_INC 1 df), (select_INC 0 df).
  split; [by apply split_run|]. cbn [heap].
  split; [by rewrite list_lookup_middle|].
  split.
  { change (heap s ++ [select_INC 1 df; select_INC 0 df])
      with (heap s ++ [select_INC 1 df] ++ [select_INC 0 df]).
    rewrite app_assoc. apply list_lookup_middle.
    rewrite length_app. cbn [length]. lia. }
  split; [by apply lookup_app_l_Some|].
  split.
  { intros r [Hr|Hr]; apply select_INC_spec in Hr; tauto. }
  split.
  { intros r [HA HB]. apply select_INC_spec in HA, HB. lia. }
  split.
  { intros r Hr HA HB. rewrite select_INC_spec in HA, HB. split; intros ?; tauto. }
  split; [intros r; apply select_INC_spec|].
  split; [intros r; apply select_INC_spec|].
  split; apply sublist_filter.
Qed.

Lemma split_partitions_witness :
  ∃ inc_enabled traditional s' cohortA cohortB,
    split 0 example_state_data = (Ok (inc_enabled, traditional), s') ∧
    heap s' !! inc_enabled = Some cohortA ∧
    heap s' !! traditional = Some cohortB ∧
    heap s' !! 0%nat = Some example_data ∧
    (∀ r, r ∈ cohortA ∨ r ∈ cohortB -> r ∈ example_data) ∧
    (∀ r, ¬ (r ∈ cohortA ∧ r ∈ cohortB)) ∧
    (∀ r, r ∈ example_data -> r ∉ cohortA -> r ∉ cohortB ->
          INC r ≠ 0%Z ∧ INC r ≠ 1%Z) ∧
    (∀ r, r ∈ cohortA <-> r ∈ example_data ∧ INC r = 1%Z) ∧
    (∀ r, r ∈ cohortB <-> r ∈ example_data ∧ INC r = 0%Z) ∧
    sublist cohortA example_data ∧ sublist cohortB example_data.
Proof.
  apply (split_partitions 0 example_data example_state_data).
  reflexivity.
Defined.

(** ** The program from its first line *)

Lemma visualize_data_missing (path : string) (s : state) :
  fs s !! path = None ->
  visualize_data path s =
  (Raise (SystemExit 1),
   mkState (fs s) (stdout s ++ ["File not found: " +:+ path])
     (calls s ++ [CallExists path]) (figures s) (heap s)).
Proof.
  destruct s as [m out lg figs h]. cbn [heap fs stdout calls figures].
  intros Hnone. unfold visualize_data. py_unfold.
  rewrite Hnone.
  rewrite bool_decide_eq_false_2 by (by intros [? ?]).
  reflexivity.
Qed.

Lemma visualize_data_not_table (path : string) (s : state) :
  (∀ df, fs s !! path ≠ Some (File (Csv df))) ->
  ∃ e, (visualize_data path s).1 = Raise e.
Proof.
  destruct (fs s !! path) as [n|] eqn:Hp.
  2:{ intros _. rewrite visualize_data_missing by done. by eexists. }
  destruct s as [m out lg figs h]. cbn [heap fs stdout calls figures] in *.
  intros Hnot. unfold visualize_data. py_unfold. rewrite Hp.
  rewrite bool_decide_eq_true_2 by (by eexists). py_unfold. rewrite Hp.
  destruct n as [|[df|fig|]].
  - by eexists.
  - by destruct (Hnot df).
  - by eexists.
  - by eexists.
Qed.

Lemma visualize_data_run (path : string) (df : DataFrame) (s : state) :
  fs s !! path = Some (File (Csv df)) ->
  visualize_data path s =
  draw_all (S (length (heap s))) (S (S (length (heap s)))) (loaded path df s).
Proof.
  destruct s as [m out lg figs h]. unfold loaded.
  cbn [heap fs stdout calls figures].
  intros Hp. unfold visualize_data. py_unfold. rewrite Hp.
  rewrite bool_decide_eq_true_2 by (by eexists). py_unfold. rewrite Hp.
  py_unfold.
  rewrite (split_run (length h) df) by (cbn [heap]; by apply list_lookup_middle).
  py_unfold.
  destruct (m !! "results"%string) as [n|] eqn:Hres.
  - rewrite bool_decide_eq_true_2 by (by eexists). py_unfold.
    rewrite length_app, Nat.add_1_r, <- !app_assoc. reflexivity.
  - rewrite bool_decide_eq_false_2 by (by intros [? ?]). py_unfold.
    rewrite Hres. py_unfold.
    rewrite length_app, Nat.add_1_r, <- !app_assoc. reflexivity.
Qed.

Lemma render_outcome_heap (c : Chart) (dfA dfB : DataFrame) (s : state) :
  heap (render_outcome c dfA dfB s).2 = heap s.
Proof.
  unfold render_outcome.
  destruct (tick_labels _); [|reflexivity].
  destruct (open_for_write _ _); reflexivity.
Qed.

Lemma bind_renderChart (c : Chart) (a b : loc) (dfA dfB : DataFrame)
    (s : state) (k : Py unit) :
  heap s !! a = Some dfA ->
  heap s !! b = Some dfB ->
  bind (renderChart c a b) (fun _ => k) s =
  match render_outcome c dfA dfB s with
  | (Ok _, s') => k s'
  | (Raise e, s') => (Raise e, s')
  end.
Proof.
  intros Ha Hb. unfold bind. by rewrite (renderChart_run c a b dfA dfB s Ha Hb).
Qed.

Ltac render_step c dfA dfB s Ha Hb :=
  let s' := fresh "s" in
  let E := fresh "E" in
  let Hh := fresh "Hh" in
  pose proof (render_outcome_heap c dfA dfB s) as Hh;
  destruct (render_outcome c dfA dfB s) as [[[]|?] s'] eqn:E;
  [cbn [snd] in Hh; rewrite <- Hh in Ha, Hb | reflexivity].

Lemma draw_all_run (a b : loc) (dfA dfB : DataFrame) (s : state) :
  heap s !! a = Some dfA ->
  heap s !! b = Some dfB ->
  draw_all a b s = run_charts charts dfA dfB s.
Proof.
  intros Ha Hb. unfold draw_all, charts. cbn [run_charts].
  rewrite plot_timing_cost_renderChart, plot_bandwidth_usage_msg_renderChart,
    plot_bandwidth_usage_byte_renderChart, plot_compl_time_diff_renderChart.
  rewrite (bind_renderChart _ a b dfA dfB s _ Ha Hb).
  render_step timing_cost_chart dfA dfB s Ha Hb.
  rewrite (bind_renderChart _ a b dfA dfB _ _ Ha Hb).
  render_step bandwidth_usage_msg_chart dfA dfB s0 Ha Hb.
  rewrite (bind_renderChart _ a b dfA dfB _ _ Ha Hb).
  render_step bandwidth_usage_byte_chart dfA dfB s1 Ha Hb.
  rewrite (renderChart_run _ a b dfA dfB _ Ha Hb).
  by destruct (render_outcome compl_time_diff_chart dfA dfB s2) as [[[]|?] ?].
Qed.

(** *** Opening the output files *)

Lemma open_for_write_results (m : gmap string node) (path : string) :
  dirname path = Some "results"%string ->
  open_for_write m path = Ok tt <->
  m !! "results"%string = Some Dir ∧ m !! path ≠ Some Dir.
Proof.
  intros Hdir. unfold open_for_write. rewrite Hdir.
  destruct (m !! "results"%string) as [[|c]|]; [|split; [done|by intros [? _]]..].
  destruct (m !! path) as [[|c]|]; split; try done.
  by intros [_ ?].
Qed.

Lemma charts_in_results (c : Chart) :
  c ∈ charts ->
  dirname (output_file c) = Some "results"%string
  ∧ output_file c ≠ "results"%string.
Proof.
  unfold charts. intros Hc.
  repeat (apply elem_of_cons in Hc as [->|Hc]; [by split|]).
  by apply elem_of_nil in Hc.
Qed.

Lemma save_all_cons (c : Chart) (cs : list Chart) (dfA dfB : DataFrame)
    (labels : list string) (m : gmap string node) :
  save_all (c :: cs) dfA dfB labels m =
  save_all cs dfA dfB labels
    (<[output_file c := File (Png (saved_figure c dfA dfB labels))]> m).
Proof. reflexivity. Qed.

Lemma save_all_lookup_results (cs : list Chart) (dfA dfB : DataFrame)
    (labels : list string) (m : gmap string node) :
  (∀ c, c ∈ cs -> output_file c ≠ "results"%string) ->
  save_all cs dfA dfB labels m !! "results"%string = m !! "results"%string.
Proof.
  revert m. induction cs as [|c cs IH]; intros m Hcs; [done|].
  rewrite save_all_cons.
  rewrite IH by (intros c' Hc'; apply Hcs; by right).
  rewrite lookup_insert_ne; [done|]. apply Hcs. by left.
Qed.

(** A sequence of renders that ends normally has saved every chart, with
    the same labels, and changed nothing else. *)
Lemma run_charts_ok (cs : list Chart) (dfA dfB : DataFrame) (labels : list string) :
  tick_labels (comp_nodes_ticks (column CompNodes dfA) (column CompNodes dfB))
    = Ok labels ->
  ∀ s s', run_charts cs dfA dfB s = (Ok tt, s') ->
    s' = mkState (save_all cs dfA dfB labels (fs s)) (stdout s)
           (calls s ++ map (fun c => CallSavefig (output_file c)) cs)
           (figures s) (heap s).
Proof.
  intros Hlabels. induction cs as [|c cs IH]; intros s s' Hrun.
  - cbn in Hrun. injection Hrun as <-. destruct s. cbn.
    by rewrite app_nil_r.
  - cbn [run_charts] in Hrun. unfold render_outcome in Hrun.
    rewrite Hlabels in Hrun. cbn zeta in Hrun.
    destruct (open_for_write (fs s) (output_file c)) as [[]|e]; [|discriminate].
    apply IH in Hrun as ->. cbn [fs stdout calls figures heap map].
    by rewrite save_all_cons, <- app_assoc.
Qed.

(** It ends normally only if the ticks convert and the first file opens. *)
Lemma run_charts_ok_inv (c : Chart) (cs : list Chart) (dfA dfB : DataFrame)
    (s s' : state) :
  run_charts (c :: cs) dfA dfB s = (Ok tt, s') ->
  (∃ labels,
     tick_labels (comp_nodes_ticks (column CompNodes dfA) (column CompNodes dfB))
       = Ok labels)
  ∧ open_for_write (fs s) (output_file c) = Ok tt.
Proof.
  cbn [run_charts]. unfold render_outcome.
  destruct (tick_labels _) as [labels|e]; [|discriminate]. cbn zeta.
  destruct (open_for_write (fs s) (output_file c)) as [[]|e]; [|discriminate].
  intros _. split; [by eexists|done].
Qed.

(** Conversely, finite ticks and a [results] directory without entries
    that are directories themselves let every render through. *)
Lemma run_charts_succeeds (cs : list Chart) (dfA dfB : DataFrame) (rs : list R) :
  comp_nodes_ticks (column CompNodes dfA) (column CompNodes dfB) = map Fin rs ->
  (∀ c, c ∈ cs -> c ∈ charts) ->
  ∀ s,
    fs s !! "results"%string = Some Dir ->
    (∀ c, c ∈ cs -> fs s !! output_file c ≠ Some Dir) ->
    (run_charts cs dfA dfB s).1 = Ok tt.
Proof.
  intros Hticks. induction cs as [|c cs IH]; intros Hcs s Hres Hfiles; [done|].
  cbn [run_charts]. unfold render_outcome.
  rewrite Hticks, tick_labels_fin. cbn zeta.
  destruct (charts_in_results c) as [Hdir Hne]; [apply Hcs; by left|].
  rewrite (proj2 (open_for_write_results (fs s) (output_file c) Hdir)).
  2:{ split; [done|]. apply Hfiles. by left. }
  apply IH.
  - intros c' Hc'. apply Hcs. by right.
  - cbn [fs]. by rewrite lookup_insert_ne.
  - intros c' Hc'. cbn [fs].
    destruct (decide (output_file c = output_file c')) as [->|Hdiff].
    + by rewrite lookup_insert_eq.
    + rewrite lookup_insert_ne by done. apply Hfiles. by right.
Qed.

Lemma loaded_lookup_inc (path : string) (df : DataFrame) (s : state) :
  heap (loaded path df s) !! S (length (heap s)) = Some (select_INC 1 df).
Proof.
  unfold loaded. cbn [heap].
  change (heap s ++ [df; select_INC 1 df; select_INC 0 df])
    with (heap s ++ [df] ++ select_INC 1 df :: [select_INC 0 df]).
  rewrite app_assoc. apply list_lookup_middle.
  rewrite length_app. cbn [length]. lia.
Qed.

Lemma loaded_lookup_trad (path : string) (df : DataFrame) (s : state) :
  heap (loaded path df s) !! S (S (length (heap s))) = Some (select_INC 0 df).
Proof.
  unfold loaded. cbn [heap].
  change (heap s ++ [df; select_INC 1 df; select_INC 0 df])
    with (heap s ++ [df; select_INC 1 df] ++ select_INC 0 df :: []).
  rewrite app_assoc. apply list_lookup_middle.
  rewrite length_app. cbn [length]. lia.
Qed.

(** What [visualize_data] does on a table, as a sequence of renders. *)
Lemma visualize_data_charts (path : string) (df : DataFrame) (s : state) :
  fs s !! path = Some (File (Csv df)) ->
  visualize_data path s =
  run_charts charts (select_INC 1 df) (select_INC 0 df) (loaded path df s).
Proof.
  intros Hp. rewrite (visualize_data_run path df s Hp).
  apply draw_all_run; [apply loaded_lookup_inc|apply loaded_lookup_trad].
Qed.

(** A render that returns has saved one figure, and only that. *)
Lemma renderChart_ok_inv (c : Chart) (a b : loc) (s : state) :
  (renderChart c a b s).1 = Ok tt ->
  ∃ dfA dfB labels,
    heap s !! a = Some dfA ∧ heap s !! b = Some dfB ∧
    (renderChart c a b s).2 =
    mkState (<[output_file c := File (Png (saved_figure c dfA dfB labels))]> (fs s))
      (stdout s) (calls s ++ [CallSavefig (output_file c)]) (figures s) (heap s).
Proof.
  destruct (heap s !! a) as [dfA|] eqn:Ha; [destruct (heap s !! b) as [dfB|] eqn:Hb|].
  - rewrite (renderChart_run c a b dfA dfB s Ha Hb). unfold render_outcome.
    destruct (tick_labels _) as [labels|e]; [|discriminate]. cbn zeta.
    destruct (open_for_write _ _) as [[]|e]; [|discriminate].
    intros _. by exists dfA, dfB, labels.
  - destruct s as [m out lg figs h]. cbn [heap] in Ha, Hb.
    unfold renderChart. py_unfold.
    repeat (first [rewrite Ha | rewrite Hb]; py_unfold). discriminate.
  - destruct s as [m out lg figs h]. cbn [heap] in Ha.
    unfold renderChart. py_unfold. rewrite Ha. py_unfold. discriminate.
Qed.

(** C6: a run of [visualize_data] that returns read a table, found
    [results] absent or a directory, and ends with [results] a directory
    and the four images under their fixed names, each replacing whatever
    was stored under that name; every other path is as before.  The calls
    it made are the two existence checks, the read, [makedirs] only if
    [results] was absent, and one [savefig] per chart, in that order.
    Each plot function that returns has saved exactly one image, under its
    own name. *)
Theorem successful_run_writes_four_charts (path : string) (s : state) :
  (visualize_data path s).1 = Ok tt ->
  (∃ df labels,
    let inc_enabled := select_INC 1 df in
    let traditional := select_INC 0 df in
    let image c := File (Png (saved_figure c inc_enabled traditional labels)) in
    fs s !! path = Some (File (Csv df)) ∧
    (fs s !! "results"%string = None ∨ fs s !! "results"%string = Some Dir) ∧
    fs (visualize_data path s).2 =
      <["results/ComplTimeDiff.png"%string := image compl_time_diff_chart]>
        (<["results/BandwidthUsage_Byte.png"%string := image bandwidth_usage_byte_chart]>
           (<["results/BandwidthUsage_Msg.png"%string := image bandwidth_usage_msg_chart]>
              (<["results/TimingCost.png"%string := image timing_cost_chart]>
                 (<["results"%string := Dir]> (fs s))))) ∧
    calls (visualize_data path s).2 =
      calls s
      ++ [CallExists path; CallReadCsv path; CallExists "results"]
      ++ (if bool_decide (is_Some (fs s !! "results"%string)) then []
          else [CallMakedirs "results"])
      ++ [CallSavefig "results/TimingCost.png";
          CallSavefig "results/BandwidthUsage_Msg.png";
          CallSavefig "results/BandwidthUsage_Byte.png";
          CallSavefig "results/ComplTimeDiff.png"]) ∧
  (∀ f p a b s0,
     (f, p) ∈ plots ->
     (f a b s0).1 = Ok tt ->
     ∃ fig, fs (f a b s0).2 = <[p := File (Png fig)]> (fs s0)
            ∧ calls (f a b s0).2 = calls s0 ++ [CallSavefig p]).
Proof.
  intros Hok. split.
  - destruct (fs s !! path) as [n|] eqn:Hp.
    2:{ rewrite visualize_data_missing in Hok by done. discriminate. }
    assert (∃ df, n = File (Csv df)) as [df ->].
    { destruct n as [|[df|fig|]]; [|by eexists|..];
        (destruct (visualize_data_not_table path s) as [e He];
         [intros df; by rewrite Hp | rewrite He in Hok; discriminate]). }
    rewrite (visualize_data_charts path df s Hp) in Hok |- *.
    destruct (run_charts _ _ _ _) as [r s'] eqn:Hrun.
    cbn [fst snd] in Hok |- *. subst r.
    pose proof Hrun as Hinv. unfold charts in Hinv.
    apply run_charts_ok_inv in Hinv as [[labels Hlabels] Hopen].
    apply (run_charts_ok _ _ _ labels Hlabels) in Hrun. subst s'.
    apply (open_for_write_results _ "results/TimingCost.png" eq_refl) in Hopen
      as [Hres _].
    exists df, labels. cbn zeta. split; [done|].
    unfold loaded in *. cbn [fs stdout calls figures heap] in *.
    destruct (fs s !! "results"%string) as [n|] eqn:Hres0.
    + rewrite bool_decide_eq_true_2 in * by (by eexists).
      rewrite Hres0 in Hres. injection Hres as ->.
      split; [by right|]. rewrite (insert_id (fs s)) by done.
      split; [reflexivity|]. by rewrite <- !app_assoc.
    + rewrite bool_decide_eq_false_2 in * by (by intros [? ?]).
      split; [by left|]. split; [reflexivity|]. by rewrite <- !app_assoc.
  - intros f p a b s0 Hf Hret.
    destruct (plots_renderChart f p Hf) as (c & _ & -> & ->).
    destruct (renderChart_ok_inv c a b s0 Hret) as (dfA & dfB & labels & _ & _ & ->).
    by eexists.
Qed.

(** A table with a row in the INC-enabled cohort and positive node counts is
    drawn without error, wherever [results] is absent or a directory with
    no directory under one of the four names. *)
Lemma visualize_data_succeeds (path : string) (df : DataFrame) (s : state) :
  fs s !! path = Some (File (Csv df)) ->
  select_INC 1 df ≠ [] ->
  (∀ r, r ∈ df -> (0 < CompNodes r)%Z) ->
  (fs s !! "results"%string = None ∨ fs s !! "results"%string = Some Dir) ->
  (∀ c, c ∈ charts -> fs s !! output_file c ≠ Some Dir) ->
  (visualize_data path s).1 = Ok tt.
Proof.
  intros Hp Hinc Hpos Hres Hfiles.
  rewrite (visualize_data_charts path df s Hp).
  destruct (comp_nodes_ticks_finite
              (column CompNodes (select_INC 1 df))
              (column CompNodes (select_INC 0 df))) as (rs & Hrs & _).
  { by destruct (select_INC 1 df). }
  { intros n Hn. unfold column in Hn.
    apply elem_of_app in Hn as [Hn|Hn];
      apply list_elem_of_fmap in Hn as (r & -> & Hr);
      apply select_INC_spec in Hr as [Hr _]; auto. }
  apply (run_charts_succeeds charts _ _ rs Hrs); [done|..].
  - unfold loaded. cbn [fs]. destruct Hres as [Hres|Hres]; rewrite Hres.
    + rewrite bool_decide_eq_false_2 by (by intros [? ?]).
      by rewrite lookup_insert_eq.
    + by rewrite bool_decide_eq_true_2 by (by eexists).
  - intros c Hc. unfold loaded. cbn [fs].
    destruct (charts_in_results c Hc) as [_ Hne].
    case_bool_decide; [by apply Hfiles|].
    rewrite lookup_insert_ne by done. by apply Hfiles.
Qed.

Lemma example_world_run : (visualize_data "result.csv" example_world).1 = Ok tt.
Proof.
  apply (visualize_data_succeeds "result.csv" example_data example_world).
  - reflexivity.
  - discriminate.
  - intros r Hr. unfold example_data in Hr.
    repeat (apply elem_of_cons in Hr as [->|Hr]; [cbn; lia|]).
    by apply elem_of_nil in Hr.
  - left. reflexivity.
  - intros c Hc. unfold charts in Hc.
    repeat (apply elem_of_cons in Hc as [->|Hc]; [by vm_compute|]).
    by apply elem_of_nil in Hc.
Defined.

Lemma successful_run_writes_four_charts_witness :
  (visualize_data "result.csv" example_world).1 = Ok tt ∧
  fs (visualize_data "result.csv" example_world).2 !! "results"%string
    = Some Dir ∧
  ∃ fig, fs (visualize_data "result.csv" example_world).2
           !! "results/ComplTimeDiff.png"%string = Some (File (Png fig)).
Proof.
  split; [apply example_world_run|].
  destruct (successful_run_writes_four_charts "result.csv" example_world
              example_world_run) as [(df & labels & _ & _ & Hfs & _) _].
  rewrite Hfs. split.
  - do 4 (rewrite lookup_insert_ne by (clear; discriminate)).
    apply lookup_insert_eq.
  - eexists. apply lookup_insert_eq.
Defined.

(** ** The cohorts are only read *)

Section HeapPreserving.

Lemma hp_ret {A} (a : A) : heap_preserving (ret a).
Proof. by intros s. Qed.

Lemma hp_raise {A} (e : exn) : heap_preserving (@raise A e).
Proof. by intros s. Qed.

Lemma hp_lift {A} (r : result A) : heap_preserving (lift r).
Proof. by intros s. Qed.

Lemma hp_bind {A B} (m : Py A) (k : A -> Py B) :
  heap_preserving m -> (∀ a, heap_preserving (k a)) -> heap_preserving (bind m k).
Proof.
  intros Hm Hk s. unfold bind. specialize (Hm s).
  destruct (m s) as [[a|e] s']; cbn [snd] in *; [|done].
  by rewrite Hk.
Qed.

Lemma hp_log (c : call) : heap_preserving (log c).
Proof. by intros s. Qed.

Lemma hp_set_fs (m : gmap string node) : heap_preserving (set_fs m).
Proof. by intros s. Qed.

Lemma hp_get_fs : heap_preserving get_fs.
Proof. by intros s. Qed.

Lemma hp_set_figures (figs : list Figure) : heap_preserving (set_figures figs).
Proof. by intros s. Qed.

Lemma hp_get_figures : heap_preserving get_figures.
Proof. by intros s. Qed.

Lemma hp_load (l : loc) : heap_preserving (load l).
Proof. intros s. unfold load. by destruct (heap s !! l). Qed.

Lemma hp_getitem (l : loc) (col : ResultRow -> Z) : heap_preserving (getitem l col).
Proof. apply hp_bind; [apply hp_load|intros; apply hp_ret]. Qed.

Lemma hp_on_gcf (change : Figure -> Figure) : heap_preserving (on_gcf change).
Proof.
  apply hp_bind; [apply hp_get_figures|].
  intros [|fig rest]; apply hp_set_figures.
Qed.

Lemma hp_plt_gcf : heap_preserving plt_gcf.
Proof.
  apply hp_bind; [apply hp_get_figures|].
  intros [|fig rest]; [|apply hp_ret].
  apply hp_bind; [apply hp_set_figures|intros; apply hp_ret].
Qed.

Lemma hp_plt_figure (size : Z * Z) : heap_preserving (plt_figure size).
Proof. apply hp_bind; [apply hp_get_figures|intros; apply hp_set_figures]. Qed.

Lemma hp_plt_savefig (path : string) : heap_preserving (plt_savefig path).
Proof.
  unfold plt_savefig.
  repeat first [apply hp_log | apply hp_plt_gcf | apply hp_get_fs
               | apply hp_lift | apply hp_set_fs
               | apply hp_bind; [|intros ?]].
Qed.

Lemma hp_plt_close : heap_preserving plt_close.
Proof. apply hp_bind; [apply hp_get_figures|intros; apply hp_set_figures]. Qed.

Lemma hp_renderChart (c : Chart) (a b : loc) : heap_preserving (renderChart c a b).
Proof.
  unfold renderChart, plt_plot, plt_title, plt_xlabel, plt_ylabel, plt_legend,
    plt_grid, plt_xscale, plt_yscale, plt_xticks, plt_tight_layout.
  repeat first [apply hp_plt_figure | apply hp_getitem | apply hp_on_gcf
               | apply hp_lift | apply hp_plt_savefig | apply hp_plt_close
               | apply hp_bind; [|intros ?]].
Qed.

End HeapPreserving.

Lemma run_charts_heap (cs : list Chart) (dfA dfB : DataFrame) (s : state) :
  heap (run_charts cs dfA dfB s).2 = heap s.
Proof.
  revert s. induction cs as [|c cs IH]; intros s; [done|].
  cbn [run_charts]. pose proof (render_outcome_heap c dfA dfB s) as Hh.
  destruct (render_outcome c dfA dfB s) as [[[]|e] s']; cbn [snd] in *.
  - by rewrite IH.
  - done.
Qed.

(** C7: none of the four plot functions changes a frame object, whatever
    it is called on and however it ends.  In [visualize_data] the four
    calls are made on the same two references, which hold the INC-enabled
    and the traditional rows of the table when the first call starts, and
    the heap at the end is the heap of that moment: the four calls read
    the same rows. *)
Theorem renders_leave_cohorts (f : loc -> loc -> Py unit) (p : string)
    (a b : loc) (s : state) (path : string) (df : DataFrame) (s0 : state) :
  (f, p) ∈ plots ->
  fs s0 !! path = Some (File (Csv df)) ->
  heap (f a b s).2 = heap s ∧
  let inc_enabled := S (length (heap s0)) in
  let traditional := S (S (length (heap s0))) in
  visualize_data path s0 =
    draw_all inc_enabled traditional (loaded path df s0) ∧
  heap (loaded path df s0) !! inc_enabled = Some (select_INC 1 df) ∧
  heap (loaded path df s0) !! traditional = Some (select_INC 0 df) ∧
  heap (visualize_data path s0).2 = heap (loaded path df s0).
Proof.
  intros Hf Hp. split.
  - destruct (plots_renderChart f p Hf) as (c & _ & -> & _).
    apply hp_renderChart.
  - cbn zeta.
    split; [by apply visualize_data_run|].
    split; [apply loaded_lookup_inc|].
    split; [apply loaded_lookup_trad|].
    rewrite (visualize_data_charts path df s0 Hp).
    by rewrite run_charts_heap.
Qed.

Lemma renders_leave_cohorts_witness :
  heap (plot_timing_cost 0 1 example_state).2 = heap example_state ∧
  let inc_enabled := S (length (heap example_world)) in
  let traditional := S (S (length (heap example_world))) in
  visualize_data "result.csv" example_world =
    draw_all inc_enabled traditional
      (loaded "result.csv" example_data example_world) ∧
  heap (loaded "result.csv" example_data example_world) !! inc_enabled
    = Some (select_INC 1 example_data) ∧
  heap (loaded "result.csv" example_data example_world) !! traditional
    = Some (select_INC 0 example_data) ∧
  heap (visualize_data "result.csv" example_world).2
    = heap (loaded "result.csv" example_data example_world).
Proof.
  apply (renders_leave_cohorts plot_timing_cost "results/TimingCost.png"
           0 1 example_state "result.csv" example_data example_world).
  - apply plot_timing_cost_in_plots.
  - reflexivity.
Defined.

(** ** The command line *)

Lemma main_usage (argv : list string) (s : state) :
  (2 < length argv)%nat ->
  main argv s =
  (Raise (SystemExit 1),
   mkState (fs s)
     (stdout s ++ ["Usage: python plotResults.py [<csv_file_path>]"%string])
     (calls s) (figures s) (heap s)).
Proof.
  intros Hlen. unfold main. rewrite bool_decide_eq_true_2 by done.
  reflexivity.
Qed.

Lemma main_default (prog : string) (s : state) :
  main [prog] s = visualize_data "result.csv" s.
Proof. reflexivity. Qed.

Lemma main_one_argument (prog path : string) (s : state) :
  main [prog; path] s = visualize_data path s.
Proof. reflexivity. Qed.

Lemma main_no_argv (s : state) : main [] s = visualize_data "result.csv" s.
Proof. reflexivity. Qed.

(** C5: with two or more arguments after the script name the program
    prints the usage line, does nothing else and ends with status 1; with
    none it runs [visualize_data] on [result.csv]; with one it runs
    [visualize_data] on that argument. *)
Theorem main_arguments :
  (∀ (prog a1 a2 : string) (rest : list string) (s : state),
     let run := main (prog :: a1 :: a2 :: rest) s in
     run.1 = Raise (SystemExit 1) ∧
     exit_status run.1 = 1%Z ∧
     stdout run.2 =
       stdout s ++ ["Usage: python plotResults.py [<csv_file_path>]"%string] ∧
     fs run.2 = fs s ∧ calls run.2 = calls s) ∧
  (∀ (prog : string) (s : state),
     main [prog] s = visualize_data "result.csv" s) ∧
  (∀ (prog path : string) (s : state),
     main [prog; path] s = visualize_data path s).
Proof.
  split; [|split].
  - intros prog a1 a2 rest s run. subst run.
    rewrite main_usage by (cbn [length]; lia). by cbn.
  - apply main_default.
  - apply main_one_argument.
Qed.

(** C4: when the chosen input path (the argument, or [result.csv] without
    one) names nothing, the program prints [File not found: <path>] to
    standard output and ends with status 1; the only library call it made
    is the existence check, so nothing was parsed. *)
Theorem missing_input_file_exits (argv : list string) (prog path : string)
    (s : state) :
  argv = [prog; path] ∨ (argv = [prog] ∧ path = "result.csv"%string) ->
  fs s !! path = None ->
  let run := main argv s in
  run.1 = Raise (SystemExit 1) ∧
  exit_status run.1 = 1%Z ∧
  stdout run.2 = stdout s ++ ["File not found: " +:+ path] ∧
  calls run.2 = calls s ++ [CallExists path] ∧
  (∀ q, CallReadCsv q ∉ drop (length (calls s)) (calls run.2)).
Proof.
  intros Hargv Hnone run.
  assert (run = visualize_data path s) as ->.
  { subst run. destruct Hargv as [->|[-> ->]];
      [apply main_one_argument|apply main_default]. }
  rewrite (visualize_data_missing path s Hnone). cbn [fst snd stdout calls].
  repeat split.
  intros q. rewrite drop_app_length.
  intros Hq. apply list_elem_of_singleton in Hq. discriminate.
Qed.

Lemma missing_input_file_exits_witness :
  let run := main ["plotResults.py"; "missing.csv"]%string empty_world in
  run.1 = Raise (SystemExit 1) ∧
  exit_status run.1 = 1%Z ∧
  stdout run.2 = stdout empty_world ++ ["File not found: missing.csv"%string] ∧
  calls run.2 = calls empty_world ++ [CallExists "missing.csv"] ∧
  (∀ q, CallReadCsv q ∉ drop (length (calls empty_world)) (calls run.2)).
Proof.
  apply (missing_input_file_exits ["plotResults.py"; "missing.csv"]%string
           "plotResults.py" "missing.csv" empty_world).
  - left. reflexivity.
  - reflexivity.
Defined.

(** C9: on that path nothing but the message is produced: the file system
    is as it was, so [results] was not created and no image was written,
    the figure stack and the heap are untouched, and neither [makedirs] nor
    [savefig] was called, the existence check being the first and only
    call. *)
Theorem missing_input_file_no_effects (argv : list string) (prog path : string)
    (s : state) :
  argv = [prog; path] ∨ (argv = [prog] ∧ path = "result.csv"%string) ->
  fs s !! path = None ->
  let run := main argv s in
  fs run.2 = fs s ∧
  figures run.2 = figures s ∧
  heap run.2 = heap s ∧
  drop (length (calls s)) (calls run.2) = [CallExists path] ∧
  (∀ q, CallMakedirs q ∉ drop (length (calls s)) (calls run.2)) ∧
  (∀ q, CallSavefig q ∉ drop (length (calls s)) (calls run.2)).
Proof.
  intros Hargv Hnone run.
  assert (run = visualize_data path s) as ->.
  { subst run. destruct Hargv as [->|[-> ->]];
      [apply main_one_argument|apply main_default]. }
  rewrite (visualize_data_missing path s Hnone).
  cbn [fst snd fs figures heap calls]. rewrite drop_app_length.
  repeat split.
  - intros q Hq. apply list_elem_of_singleton in Hq. discriminate.
  - intros q Hq. apply list_elem_of_singleton in Hq. discriminate.
Qed.

Lemma missing_input_file_no_effects_witness :
  let run := main ["plotResults.py"]%string empty_world in
  fs run.2 = fs empty_world ∧
  figures run.2 = figures empty_world ∧
  heap run.2 = heap empty_world ∧
  drop (length (calls empty_world)) (calls run.2) = [CallExists "result.csv"] ∧
  (∀ q, CallMakedirs q ∉ drop (length (calls empty_world)) (calls run.2)) ∧
  (∀ q, CallSavefig q ∉ drop (length (calls empty_world)) (calls run.2)).
Proof.
  apply (missing_input_file_no_effects ["plotResults.py"]%string
           "plotResults.py" "result.csv" empty_world).
  - right. split; reflexivity.
  - reflexivity.
Defined.

(** * Further properties of the script *)

(** ** Nothing is lost in the split *)

Lemma select_other_permutation (df : DataFrame) :
  select_INC 1 df ++ select_INC 0 df ++ other_flags df ≡ₚ df.
Proof.
  unfold select_INC, other_flags.
  induction df as [|r df IH]; [done|].
  rewrite !filter_cons.
  destruct (decide (INC r = 1%Z)) as [H1|H1];
    destruct (decide (INC r = 0%Z)) as [H0|H0];
    destruct (decide (INC r ≠ 1%Z ∧ INC r ≠ 0%Z)) as [Hn|Hn];
    try lia; try (exfalso; apply Hn; split; lia).
  - cbn [app]. by rewrite IH.
  - rewrite <- app_comm_cons, <- Permutation_middle. by rewrite IH.
  - rewrite app_assoc, <- Permutation_middle, <- app_assoc. by rewrite IH.
Qed.

(** X1: the two cohorts and the rows with another flag, put together, are
    the rows of the table, each as often as the table has it: [split]
    neither loses nor repeats a row, and the cohorts together are as long
    as the table exactly when every flag is 0 or 1. *)
Theorem split_loses_no_row (data : loc) (df : DataFrame) (s : state) :
  heap s !! data = Some df ->
  ∃ inc_enabled traditional s' cohortA cohortB,
    split data s = (Ok (inc_enabled, traditional), s') ∧
    heap s' !! inc_enabled = Some cohortA ∧
    heap s' !! traditional = Some cohortB ∧
    cohortA ++ cohortB ++ other_flags df ≡ₚ df ∧
    (length cohortA + length cohortB + length (other_flags df) = length df)%nat ∧
    ((length cohortA + length cohortB = length df)%nat <->
     ∀ r, r ∈ df -> INC r = 1%Z ∨ INC r = 0%Z).
Proof.
  intros Hdata.
  exists (length (heap s)), (S (length (heap s))).
  eexists _, (select_INC 1 df), (select_INC 0 df).
  split; [by apply split_run|]. cbn [heap].
  split; [by rewrite list_lookup_middle|].
  split.
  { change (heap s ++ [select_INC 1 df; select_INC 0 df])
      with (heap s ++ [select_INC 1 df] ++ [select_INC 0 df]).
    rewrite app_assoc. apply list_lookup_middle.
    rewrite length_app. cbn [length]. lia. }
  pose proof (select_other_permutation df) as Hperm.
  split; [done|].
  assert (length (select_INC 1 df) + length (select_INC 0 df)
          + length (other_flags df) = length df)%nat as Hlen.
  { rewrite <- Hperm at 4. rewrite !length_app. lia. }
  split; [done|]. split.
  - intros Heq r Hr.
    assert (other_flags df = []) as Hnone.
    { apply length_zero_iff_nil. lia. }
    destruct (decide (INC r = 1%Z)) as [|H1]; [by left|].
    destruct (decide (INC r = 0%Z)) as [|H0]; [by right|].
    assert (r ∈ other_flags df) as Hin.
    { unfold other_flags. apply list_elem_of_filter. by split. }
    rewrite Hnone in Hin. by apply elem_of_nil in Hin.
  - intros Hall.
    assert (other_flags df = []) as Hnone.
    { destruct (other_flags df) as [|r rest] eqn:Hflags; [done|].
      assert (r ∈ other_flags df) as Hin by (rewrite Hflags; left).
      unfold other_flags in Hin.
      apply list_elem_of_filter in Hin as [[H1 H0] Hr].
      destruct (Hall r Hr); lia. }
    rewrite Hnone in Hlen. cbn [length] in Hlen. lia.
Qed.

Lemma split_loses_no_row_witness :
  ∃ inc_enabled traditional s' cohortA cohortB,
    split 0 example_state_data = (Ok (inc_enabled, traditional), s') ∧
    heap s' !! inc_enabled = Some cohortA ∧
    heap s' !! traditional = Some cohortB ∧
    cohortA ++ cohortB ++ other_flags example_data ≡ₚ example_data ∧
    (length cohortA + length cohortB + length (other_flags example_data)
     = length example_data)%nat ∧
    ((length cohortA + length cohortB = length example_data)%nat <->
     ∀ r, r ∈ example_data -> INC r = 1%Z ∨ INC r = 0%Z).
Proof.
  apply (split_loses_no_row 0 example_data example_state_data).
  reflexivity.
Defined.

(** ** The ticks in general *)

Lemma np_linspace_length (start stop : float64) :
  length (np_linspace start stop 10) = 10%nat.
Proof.
  unfold np_linspace, np_arange, set_last.
  rewrite !bool_decide_eq_true_2 by (cbn; lia).
  destruct (f_is_zero _);
    by rewrite length_insert, !length_map, length_seq.
Qed.

Lemma np_logspace_length (start stop : float64) :
  length (np_logspace start stop 10) = 10%nat.
Proof. unfold np_logspace. by rewrite length_map, np_linspace_length. Qed.

(** Labels exist only for finite ticks, one per tick. *)
Lemma tick_labels_ok_inv (ticks : list float64) (labels : list string) :
  tick_labels ticks = Ok labels ->
  ∃ rs, ticks = map Fin rs
        ∧ labels = map (fun r => format_thousands (R_trunc r)) rs.
Proof.
  revert labels. induction ticks as [|t ticks IH]; intros labels Hok.
  - injection Hok as <-. by exists [].
  - cbn [tick_labels] in Hok.
    destruct t as [| |r]; cbn [py_int] in Hok; try discriminate.
    destruct (tick_labels ticks) as [labels'|e]; [|discriminate].
    injection Hok as <-.
    destruct (IH labels' eq_refl) as (rs & -> & ->). by exists (r :: rs).
Qed.

(** A start that is [nan] or [-inf] makes the first tick [nan]. *)
Lemma np_logspace_head_nan (start stop : float64) :
  start = NaN ∨ start = Inf true ->
  ∃ rest, np_logspace start stop 10 = NaN :: rest.
Proof.
  intros Hstart.
  unfold np_logspace, np_linspace, np_arange, set_last.
  rewrite !bool_decide_eq_true_2 by (cbn; lia).
  assert (f_is_zero (f_div_int (f_sub stop start) (Init.Nat.pred 10)) = false)
    as ->.
  { destruct Hstart as [-> | ->]; destruct stop as [|[]|r]; reflexivity. }
  cbn [seq map length Init.Nat.pred insert list_insert].
  assert (f_add (f_mul (Fin (INR 0)) (f_div_int (f_sub stop start) 9)) start
          = NaN) as ->.
  { destruct Hstart as [-> | ->]; destruct stop as [|[]|r];
      cbn [f_sub f_neg f_add f_div_int f_mul negb bool_decide];
      try reflexivity.
    all: unfold R_zero; cbn [INR]; destruct (Req_dec_T 0 0); done. }
  by eexists.
Qed.

Lemma combined_min_le (nodesA nodesB : list Z) (m n : Z) :
  nodesA ≠ [] ->
  py_min (series_min nodesA) (series_min nodesB) = SInt m ->
  n ∈ nodesA ++ nodesB -> (m <= n)%Z.
Proof.
  destruct nodesA as [|z zs]; [done|]. intros _.
  pose proof (list_min_Z_le z zs) as HleA.
  destruct nodesB as [|w ws]; cbn [series_min].
  - rewrite py_min_nan_r. intros [= <-]. rewrite app_nil_r. apply HleA.
  - pose proof (list_min_Z_le w ws) as HleB.
    unfold py_min, scalar_lt, scalar_gt.
    case_bool_decide; intros [= <-] Hn;
      apply elem_of_app in Hn as [Hn|Hn];
      [apply HleA in Hn|apply HleB in Hn|apply HleA in Hn|apply HleB in Hn];
      lia.
Qed.

(** A node count that is not positive makes the first tick [nan]. *)
Lemma comp_nodes_ticks_nonpositive (nodesA nodesB : list Z) (n : Z) :
  nodesA ≠ [] ->
  n ∈ nodesA ++ nodesB -> (n <= 0)%Z ->
  ∃ rest, comp_nodes_ticks nodesA nodesB = NaN :: rest.
Proof.
  intros HA Hn Hneg.
  destruct (combined_min_elem nodesA nodesB HA) as (lo & Hlo & _).
  pose proof (combined_min_le nodesA nodesB lo n HA Hlo Hn) as Hle.
  unfold comp_nodes_ticks. rewrite Hlo.
  apply np_logspace_head_nan. unfold np_log10.
  rewrite bool_decide_eq_false_2 by lia.
  case_bool_decide; [by right|by left].
Qed.

Lemma open_for_write_errors (m : gmap string node) (path : string) (e : exn) :
  open_for_write m path = Raise e ->
  e = FileNotFoundError ∨ e = NotADirectoryError ∨ e = IsADirectoryError.
Proof.
  unfold open_for_write.
  destruct (dirname path) as [d|].
  - destruct (m !! d) as [[|c]|]; [|intros [= <-]; auto..].
    destruct (m !! path) as [[|c]|]; [intros [= <-]; auto|done..].
  - destruct (m !! path) as [[|c]|]; [intros [= <-]; auto|done..].
Qed.

Lemma tick_labels_errors (ticks : list float64) (e : exn) :
  tick_labels ticks = Raise e -> e = ValueError ∨ e = OverflowError.
Proof.
  induction ticks as [|t ticks IH]; [done|]. cbn [tick_labels].
  destruct t as [| |r]; cbn [py_int]; [intros [= <-]; auto..|].
  destruct (tick_labels ticks); [done|]. intros [= <-]. by apply IH.
Qed.

(** The labels exist exactly for a cohort pair with an INC-enabled row and
    positive node counts throughout. *)
Lemma tick_labels_ok_positive (nodesA nodesB : list Z) (labels : list string) :
  tick_labels (comp_nodes_ticks nodesA nodesB) = Ok labels ->
  nodesA ≠ [] ∧ ∀ n, n ∈ nodesA ++ nodesB -> (0 < n)%Z.
Proof.
  intros Hok. assert (nodesA ≠ []) as HA.
  { intros ->. by rewrite comp_nodes_ticks_empty_inc in Hok. }
  split; [done|]. intros n Hn.
  destruct (decide (0 < n)%Z) as [|Hneg]; [done|].
  destruct (comp_nodes_ticks_nonpositive nodesA nodesB n HA Hn) as [rest Hrest];
    [lia|].
  by rewrite Hrest in Hok.
Qed.

Lemma renderChart_returns (c : Chart) (a b : loc) (s : state) :
  (renderChart c a b s).1 = Ok tt ->
  ∃ dfA dfB labels,
    heap s !! a = Some dfA ∧ heap s !! b = Some dfB ∧
    tick_labels (comp_nodes_ticks (column CompNodes dfA) (column CompNodes dfB))
      = Ok labels ∧
    open_for_write (fs s) (output_file c) = Ok tt ∧
    renderChart c a b s =
    (Ok tt,
     mkState (<[output_file c := File (Png (saved_figure c dfA dfB labels))]> (fs s))
       (stdout s) (calls s ++ [CallSavefig (output_file c)]) (figures s)
       (heap s)).
Proof.
  intros Hok.
  destruct (renderChart_ok_inv c a b s Hok) as (dfA & dfB & _ & Ha & Hb & _).
  rewrite (renderChart_run c a b dfA dfB s Ha Hb) in Hok |- *.
  unfold render_outcome in Hok |- *.
  destruct (tick_labels _) as [labels|e] eqn:Hlabels; [|discriminate].
  cbn zeta in Hok |- *.
  destruct (open_for_write _ _) as [[]|e] eqn:Hopen; [|discriminate].
  by exists dfA, dfB, labels.
Qed.

Lemma Rpower_10_pos (x : R) : 0 < Rpower 10 x.
Proof. unfold Rpower. apply exp_pos. Qed.

(** X2: whatever the data, an image saved by one of the four plot functions
    carries exactly ten ticks and ten labels, and every tick is a positive
    finite number, as the logarithmic axis needs. *)
Theorem saved_image_has_ten_ticks (f : loc -> loc -> Py unit) (p : string)
    (a b : loc) (s : state) :
  (f, p) ∈ plots ->
  (f a b s).1 = Ok tt ->
  ∃ ticks labels rs,
    png_xticks (f a b s).2 p = Some (ticks, labels) ∧
    length ticks = 10%nat ∧ length labels = 10%nat ∧
    ticks = map Fin rs ∧ Forall (fun r => 0 < r) rs.
Proof.
  intros Hf Hok.
  destruct (plots_renderChart f p Hf) as (c & _ & -> & ->).
  destruct (renderChart_returns c a b s Hok)
    as (dfA & dfB & labels & Ha & Hb & Hlabels & _ & ->).
  destruct (tick_labels_ok_positive _ _ _ Hlabels) as [HA Hpos].
  destruct (combined_min_elem _ (column CompNodes dfB) HA) as (lo & Hlo & Hlo_in).
  destruct (combined_max_elem _ (column CompNodes dfB) HA) as (hi & Hhi & Hhi_in).
  pose proof (comp_nodes_ticks_pos _ _ lo hi (Hpos _ Hlo_in) (Hpos _ Hhi_in)
                Hlo Hhi) as Hticks.
  rewrite Hticks, tick_labels_fin in Hlabels. injection Hlabels as <-.
  eexists _, _, _. cbn [snd]. rewrite png_xticks_saved.
  split; [reflexivity|]. rewrite Hticks.
  rewrite !length_map, length_seq.
  split; [done|]. split; [done|]. split; [reflexivity|].
  apply Forall_forall. intros r Hr.
  apply list_elem_of_fmap in Hr as (i & -> & _). apply Rpower_10_pos.
Qed.

Lemma saved_image_has_ten_ticks_witness :
  ∃ ticks labels rs,
    png_xticks (plot_bandwidth_usage_byte 0 1 example_state).2
      "results/BandwidthUsage_Byte.png" = Some (ticks, labels) ∧
    length ticks = 10%nat ∧ length labels = 10%nat ∧
    ticks = map Fin rs ∧ Forall (fun r => 0 < r) rs.
Proof.
  apply (saved_image_has_ten_ticks plot_bandwidth_usage_byte
           "results/BandwidthUsage_Byte.png" 0 1 example_state).
  - unfold plots. do 2 apply list_elem_of_further. apply list_elem_of_here.
  - rewrite plot_bandwidth_usage_byte_renderChart.
    apply (renderChart_succeeds bandwidth_usage_byte_chart 0 1
             example_inc example_trad example_state).
    + reflexivity.
    + reflexivity.
    + discriminate.
    + intros n Hn. vm_compute in Hn.
      repeat (apply elem_of_cons in Hn as [->|Hn]; [lia|]).
      by apply elem_of_nil in Hn.
    + vm_compute. reflexivity.
Defined.

(** X3: a plot function ends in a [ValueError] exactly when the INC-enabled
    cohort has no row or some row of either cohort reports a node count
    that is not positive (the logarithm is then [-inf] or [nan]); in that
    case nothing is written.  It never ends in an [OverflowError]. *)
Theorem render_value_error_iff (f : loc -> loc -> Py unit) (p : string)
    (a b : loc) (dfA dfB : DataFrame) (s : state) :
  (f, p) ∈ plots ->
  heap s !! a = Some dfA ->
  heap s !! b = Some dfB ->
  ((f a b s).1 = Raise ValueError <->
   dfA = [] ∨
   ∃ n, n ∈ column CompNodes dfA ++ column CompNodes dfB ∧ (n <= 0)%Z) ∧
  ((f a b s).1 = Raise ValueError ->
   fs (f a b s).2 = fs s ∧ calls (f a b s).2 = calls s) ∧
  (f a b s).1 ≠ Raise OverflowError.
Proof.
  intros Hf Ha Hb.
  destruct (plots_renderChart f p Hf) as (c & _ & -> & ->).
  rewrite (renderChart_run c a b dfA dfB s Ha Hb). unfold render_outcome.
  destruct (tick_labels _) as [labels|e] eqn:Hlabels.
  - destruct (tick_labels_ok_positive _ _ _ Hlabels) as [HA Hpos].
    cbn zeta.
    destruct (open_for_write _ _) as [[]|e] eqn:Hopen; cbn [fst snd].
    + split; [split; [done|]|split; done].
      intros [->|(n & Hn & Hneg)]; [done|]. specialize (Hpos n Hn). lia.
    + destruct (open_for_write_errors _ _ _ Hopen) as [->|[->| ->]];
        (split; [split; [done|]|split; done]);
        (intros [->|(n & Hn & Hneg)]; [done|]; specialize (Hpos n Hn); lia).
  - cbn [fst snd fs calls].
    assert (e = ValueError) as ->.
    { destruct (decide (column CompNodes dfA = [])) as [HA|HA].
      - rewrite HA, comp_nodes_ticks_empty_inc in Hlabels.
        by injection Hlabels as <-.
      - destruct (decide (Forall (fun n => (0 < n)%Z)
                            (column CompNodes dfA ++ column CompNodes dfB)))
          as [Hall|Hsome].
        + destruct (comp_nodes_ticks_finite _ (column CompNodes dfB) HA)
          as (rs & Hrs & _).
          { intros n Hn. by apply (proj1 (Forall_forall _ _) Hall). }
          by rewrite Hrs, tick_labels_fin in Hlabels.
        + apply not_Forall_Exists in Hsome; [|apply _].
          apply Exists_exists in Hsome as (n & Hn & Hneg). cbn in Hneg.
          destruct (comp_nodes_ticks_nonpositive _ _ n HA Hn) as [rest Hrest];
            [lia|].
          rewrite Hrest in Hlabels. by injection Hlabels as <-. }
    split; [split; [intros _|done]|split; done].
    destruct (decide (dfA = [])) as [|HdfA]; [by left|right].
    assert (column CompNodes dfA ≠ []) as HA by (by destruct dfA).
    destruct (decide (Forall (fun n => (0 < n)%Z)
                        (column CompNodes dfA ++ column CompNodes dfB)))
      as [Hall|Hsome].
    + destruct (comp_nodes_ticks_finite _ (column CompNodes dfB) HA)
          as (rs & Hrs & _).
      { intros n Hn. by apply (proj1 (Forall_forall _ _) Hall). }
      by rewrite Hrs, tick_labels_fin in Hlabels.
    + apply not_Forall_Exists in Hsome; [|apply _].
      apply Exists_exists in Hsome as (n & Hn & Hneg). cbn in Hneg.
      exists n. split; [done|lia].
Qed.

Lemma render_value_error_iff_witness :
  ((plot_timing_cost 0 1 example_state_zero_nodes).1 = Raise ValueError <->
   [mkRow 0 1 5 3 300 1; mkRow 1000 1 50 30 3000 2] = [] ∨
   ∃ n, n ∈ column CompNodes [mkRow 0 1 5 3 300 1; mkRow 1000 1 50 30 3000 2]
            ++ column CompNodes example_trad ∧ (n <= 0)%Z) ∧
  ((plot_timing_cost 0 1 example_state_zero_nodes).1 = Raise ValueError ->
   fs (plot_timing_cost 0 1 example_state_zero_nodes).2
     = fs example_state_zero_nodes ∧
   calls (plot_timing_cost 0 1 example_state_zero_nodes).2
     = calls example_state_zero_nodes) ∧
  (plot_timing_cost 0 1 example_state_zero_nodes).1 ≠ Raise OverflowError.
Proof.
  apply (render_value_error_iff plot_timing_cost "results/TimingCost.png" 0 1
           [mkRow 0 1 5 3 300 1; mkRow 1000 1 50 30 3000 2] example_trad
           example_state_zero_nodes).
  - apply plot_timing_cost_in_plots.
  - reflexivity.
  - reflexivity.
Defined.

(** X4: for a cohort pair with an INC-enabled row whose node counts,
    over both cohorts together, range from a positive [lo] to [hi], each
    plot function saves the ticks [logspace(log10 lo, log10 hi, 10)]: the
    ticks depend on the two cohorts only through the smallest and the
    largest node count of the two together.  The first tick is
    [10**log10(lo)] and the last [10**log10(hi)]; when [lo = hi] the ten
    ticks coincide and are not strictly increasing.  The output file can
    be opened. *)
Theorem ticks_from_combined_range (f : loc -> loc -> Py unit) (p : string)
    (s : state) (a b : loc) (dfA dfB : DataFrame) (lo hi : Z) :
  (f, p) ∈ plots ->
  heap s !! a = Some dfA ->
  heap s !! b = Some dfB ->
  dfA ≠ [] ->
  (∀ n, n ∈ column CompNodes dfA ++ column CompNodes dfB -> (lo <= n <= hi)%Z) ->
  lo ∈ column CompNodes dfA ++ column CompNodes dfB ->
  hi ∈ column CompNodes dfA ++ column CompNodes dfB ->
  (0 < lo)%Z ->
  open_for_write (fs s) p = Ok tt ->
  ∃ ticks labels,
    (f a b s).1 = Ok tt ∧
    png_xticks (f a b s).2 p = Some (ticks, labels) ∧
    ticks = np_logspace (np_log10 (SInt lo)) (np_log10 (SInt hi)) 10 ∧
    ticks !! 0%nat = Some (np_power10 (np_log10 (SInt lo))) ∧
    ticks !! 9%nat = Some (np_power10 (np_log10 (SInt hi))) ∧
    (lo = hi ->
     ticks = replicate 10 (np_power10 (np_log10 (SInt lo)))
     ∧ ¬ StronglySorted f_lt ticks).
Proof.
  intros Hf Ha Hb HdfA Hbounds Hlo_in Hhi_in Hlo Hopen.
  destruct (plots_renderChart f p Hf) as (c & _ & -> & ->).
  assert (column CompNodes dfA ≠ []) as HA by (by destruct dfA).
  assert (lo <= hi)%Z as Hle by (apply (Hbounds lo Hlo_in)).
  pose proof (combined_min _ _ lo hi HA Hbounds Hlo_in) as Hmin.
  pose proof (combined_max _ _ lo hi HA Hbounds Hhi_in) as Hmax.
  pose proof (comp_nodes_ticks_pos _ _ lo hi Hlo ltac:(lia) Hmin Hmax) as Hticks.
  rewrite (renderChart_finite_ticks c a b dfA dfB s _ Ha Hb Hticks Hopen).
  cbn [fst snd]. rewrite png_xticks_saved.
  assert (comp_nodes_ticks (column CompNodes dfA) (column CompNodes dfB) =
          np_logspace (np_log10 (SInt lo)) (np_log10 (SInt hi)) 10) as Hlog.
  { unfold comp_nodes_ticks. by rewrite Hmin, Hmax. }
  eexists _, _. split; [reflexivity|]. split; [reflexivity|].
  split; [exact Hlog|]. rewrite Hlog.
  rewrite !np_log10_pos by lia. rewrite np_logspace_fin.
  set (L := ln (IZR lo) / ln 10). set (H := ln (IZR hi) / ln 10).
  split; [|split].
  - cbn [map seq lookup list_lookup INR np_power10]. do 3 f_equal. lra.
  - cbn [map seq lookup list_lookup INR np_power10]. do 3 f_equal. lra.
  - intros Heq. assert (H = L) as -> by (subst H L; by rewrite Heq).
    assert (map (fun i => Fin (Rpower 10 (L + INR i * (L - L) / 9))) (seq 0 10)
            = replicate 10 (np_power10 (Fin L))) as ->.
    { change (replicate 10 (np_power10 (Fin L)))
        with (map (fun _ : nat => Fin (Rpower 10 L)) (seq 0 10)).
      apply map_ext. intros i. do 2 f_equal. lra. }
    split; [reflexivity|]. apply replicate_not_increasing.
Qed.

Lemma ticks_from_combined_range_witness :
  ∃ ticks labels,
    (plot_compl_time_diff 0 1 example_state_single).1 = Ok tt ∧
    png_xticks (plot_compl_time_diff 0 1 example_state_single).2
      "results/ComplTimeDiff.png" = Some (ticks, labels) ∧
    ticks = np_logspace (np_log10 (SInt 10)) (np_log10 (SInt 10)) 10 ∧
    ticks !! 0%nat = Some (np_power10 (np_log10 (SInt 10))) ∧
    ticks !! 9%nat = Some (np_power10 (np_log10 (SInt 10))) ∧
    (10%Z = 10%Z ->
     ticks = replicate 10 (np_power10 (np_log10 (SInt 10)))
     ∧ ¬ StronglySorted f_lt ticks).
Proof.
  apply (ticks_from_combined_range plot_compl_time_diff
           "results/ComplTimeDiff.png" example_state_single 0 1
           [mkRow 10 1 5 3 300 1] [mkRow 10 0 8 6 600 2] 10 10).
  - apply plot_compl_time_diff_in_plots.
  - reflexivity.
  - reflexivity.
  - discriminate.
  - intros n Hn. vm_compute in Hn.
    repeat (apply elem_of_cons in Hn as [->|Hn]; [lia|]).
    by apply elem_of_nil in Hn.
  - left.
  - left.
  - lia.
  - vm_compute. reflexivity.
Defined.

(** ** Every way a run can go *)

Lemma visualize_data_unreadable (path : string) (n : node) (s : state) :
  fs s !! path = Some n ->
  (∀ df, n ≠ File (Csv df)) ->
  visualize_data path s =
  (Raise (match n with Dir => IsADirectoryError | File _ => ParserError end),
   mkState (fs s) (stdout s) (calls s ++ [CallExists path; CallReadCsv path])
     (figures s) (heap s)).
Proof.
  destruct s as [m out lg figs h]. cbn [heap fs stdout calls figures].
  intros Hp Hnot. unfold visualize_data. py_unfold. rewrite Hp.
  rewrite bool_decide_eq_true_2 by (by eexists). py_unfold. rewrite Hp.
  destruct n as [|[df|fig|]]; py_unfold; rewrite <- ?app_assoc; try reflexivity.
  by destruct (Hnot df).
Qed.

(** [main] either stops at the usage line or runs [visualize_data]. *)
Lemma main_cases (argv : list string) (s : state) :
  ((2 < length argv)%nat ∧
   main argv s =
   (Raise (SystemExit 1),
    mkState (fs s)
      (stdout s ++ ["Usage: python plotResults.py [<csv_file_path>]"%string])
      (calls s) (figures s) (heap s)))
  ∨ ((length argv <= 2)%nat ∧
     ∃ path, main argv s = visualize_data path s).
Proof.
  destruct (decide (2 < length argv)%nat) as [Hlen|Hlen].
  - left. split; [done|]. by apply main_usage.
  - right. split; [lia|]. unfold main.
    rewrite bool_decide_eq_false_2 by done. by eexists.
Qed.

(** What a sequence of renders can touch, whatever its outcome. *)
Lemma run_charts_frame (cs : list Chart) (dfA dfB : DataFrame) (s : state) :
  stdout (run_charts cs dfA dfB s).2 = stdout s ∧
  (∀ q, q ∉ map output_file cs ->
        fs (run_charts cs dfA dfB s).2 !! q = fs s !! q) ∧
  (∃ k, calls (run_charts cs dfA dfB s).2 =
        calls s ++ map (fun c => CallSavefig (output_file c)) (take k cs)) ∧
  (∀ e, (run_charts cs dfA dfB s).1 = Raise e ->
        e = ValueError ∨ e = OverflowError ∨ e = FileNotFoundError
        ∨ e = NotADirectoryError ∨ e = IsADirectoryError).
Proof.
  revert s. induction cs as [|c cs IH]; intros s.
  { cbn. split; [done|]. split; [done|]. split; [|done].
    exists 0%nat. by rewrite app_nil_r. }
  cbn [run_charts]. unfold render_outcome.
  destruct (tick_labels _) as [labels|e] eqn:Hlabels.
  2:{ cbn. split; [done|]. split; [done|]. split.
      - exists 0%nat. by rewrite app_nil_r.
      - intros e' [= <-].
        destruct (tick_labels_errors _ _ Hlabels) as [->| ->]; auto. }
  cbn zeta. destruct (open_for_write _ _) as [[]|e] eqn:Hopen.
  2:{ cbn. split; [done|]. split; [done|]. split.
      - exists 1%nat. reflexivity.
      - intros e' [= <-].
        destruct (open_for_write_errors _ _ _ Hopen) as [->|[->| ->]]; auto 6. }
  match goal with |- context [run_charts cs dfA dfB ?s1] =>
    destruct (IH s1) as (Hout & Hfs & [k Hcalls] & Herr) end.
  cbn [fs stdout calls] in *.
  split; [done|]. split; [|split; [|done]].
  - intros q Hq. cbn [map] in Hq. apply not_elem_of_cons in Hq as [Hne Hq].
    rewrite (Hfs q Hq). by rewrite lookup_insert_ne.
  - exists (S k). rewrite Hcalls, <- app_assoc. reflexivity.
Qed.

Lemma results_not_output : "results"%string ∉ map output_file charts.
Proof.
  cbn [map charts output_file timing_cost_chart bandwidth_usage_msg_chart
         bandwidth_usage_byte_chart compl_time_diff_chart].
  repeat (apply not_elem_of_cons; split; [discriminate|]).
  apply not_elem_of_nil.
Qed.

(** The outcome and the file system of [visualize_data], case by case. *)
Lemma visualize_data_cases (path : string) (s : state) :
  (fs (visualize_data path s).2 = fs s ∧
   ∃ e, (visualize_data path s).1 = Raise e ∧
        (e = SystemExit 1 ∨ e = IsADirectoryError ∨ e = ParserError))
  ∨ ∃ df, fs s !! path = Some (File (Csv df)) ∧
          visualize_data path s =
          run_charts charts (select_INC 1 df) (select_INC 0 df)
            (loaded path df s).
Proof.
  destruct (fs s !! path) as [n|] eqn:Hp.
  2:{ left. rewrite (visualize_data_missing path s Hp). split; [done|].
      eexists; split; [done|]. by left. }
  assert ((∃ df, n = File (Csv df)) ∨ ∀ df, n ≠ File (Csv df)) as [[df ->]|Hnot].
  { destruct n as [|[df|fig|]]; [by right|left; by eexists|by right..]. }
  { right. exists df. split; [done|]. by apply visualize_data_charts. }
  left. rewrite (visualize_data_unreadable path n s Hp Hnot).
  split; [done|]. eexists; split; [done|]. destruct n; auto.
Qed.

(** X5: whatever the arguments and the working directory, and however the
    run ends, the program leaves every path other than [results] and the
    four image names exactly as it was (so it never changes or removes its
    input unless the input has one of those names), and [results] itself
    is either left as it was or, if it did not exist, created as a
    directory. *)
Theorem writes_are_confined (argv : list string) (s : state) (q : string) :
  q ≠ "results"%string ->
  q ∉ output_files ->
  fs (main argv s).2 !! q = fs s !! q ∧
  (fs (main argv s).2 !! "results"%string = fs s !! "results"%string ∨
   (fs s !! "results"%string = None ∧
    fs (main argv s).2 !! "results"%string = Some Dir)).
Proof.
  intros Hq Hout.
  destruct (main_cases argv s) as [[_ ->]|[_ [path ->]]]; [by split; [|left]|].
  destruct (visualize_data_cases path s) as [[-> _]|(df & Hp & ->)];
    [by split; [|left]|].
  destruct (run_charts_frame charts (select_INC 1 df) (select_INC 0 df)
              (loaded path df s)) as (_ & Hfs & _ & _).
  rewrite (Hfs q Hout), (Hfs _ results_not_output).
  unfold loaded. cbn [fs]. case_bool_decide as Hres.
  - by split; [|left].
  - rewrite lookup_insert_ne by done. rewrite lookup_insert_eq.
    split; [done|]. right. split; [|done].
    destruct (fs s !! "results"%string) eqn:E; [|done].
    destruct Hres. by eexists.
Qed.

Lemma writes_are_confined_witness :
  fs (main ["plotResults.py"%string] example_world).2 !! "result.csv"%string
    = fs example_world !! "result.csv"%string ∧
  (fs (main ["plotResults.py"%string] example_world).2 !! "results"%string
     = fs example_world !! "results"%string ∨
   (fs example_world !! "results"%string = None ∧
    fs (main ["plotResults.py"%string] example_world).2 !! "results"%string
      = Some Dir)).
Proof.
  apply (writes_are_confined ["plotResults.py"%string] example_world
           "result.csv").
  - discriminate.
  - unfold output_files.
    cbn [map charts output_file timing_cost_chart bandwidth_usage_msg_chart
           bandwidth_usage_byte_chart compl_time_diff_chart].
    repeat (apply not_elem_of_cons; split; [discriminate|]).
    apply not_elem_of_nil.
Defined.

(** X6: the process ends with status 0 or 1, never anything else, and with
    status 0 exactly when [main] returned without an exception. *)
Theorem exit_status_zero_or_one (argv : list string) (s : state) :
  (exit_status (main argv s).1 = 0%Z ∨ exit_status (main argv s).1 = 1%Z) ∧
  (exit_status (main argv s).1 = 0%Z <-> (main argv s).1 = Ok tt).
Proof.
  destruct (main_cases argv s) as [[_ ->]|[_ [path ->]]].
  { cbn. split; [by right|]. split; intros; discriminate. }
  destruct (visualize_data_cases path s)
    as [[_ (e & -> & He)]|(df & _ & ->)].
  { destruct He as [->|[->| ->]]; cbn; (split; [by right|]);
      split; intros; discriminate. }
  destruct (run_charts_frame charts (select_INC 1 df) (select_INC 0 df)
              (loaded path df s)) as (_ & _ & _ & Herr).
  destruct (run_charts _ _ _ _).1 as [[]|e].
  - cbn. split; [by left|done].
  - destruct (Herr e eq_refl) as [->|[->|[->|[->| ->]]]]; cbn;
      (split; [by right|]); split; intros; discriminate.
Qed.

(** ** Runs that fail *)

(** X7: when the input path names a directory, the existence check
    passes and the run ends at the read with an uncaught
    [IsADirectoryError], hence status 1: nothing is printed to standard
    output, the file system is as it was, and [results] is neither looked
    for nor created. *)
Theorem directory_input_fails_cleanly (prog path : string) (s : state) :
  fs s !! path = Some Dir ->
  let run := main [prog; path] s in
  run.1 = Raise IsADirectoryError ∧
  exit_status run.1 = 1%Z ∧
  fs run.2 = fs s ∧
  stdout run.2 = stdout s ∧
  calls run.2 = calls s ++ [CallExists path; CallReadCsv path].
Proof.
  intros Hp run. subst run. rewrite main_one_argument.
  rewrite (visualize_data_unreadable path Dir s Hp) by discriminate.
  cbn [fst snd fs stdout calls]. by repeat split.
Qed.

Lemma directory_input_fails_cleanly_witness :
  let run := main ["plotResults.py"; "result.csv"]%string world_dir_input in
  run.1 = Raise IsADirectoryError ∧
  exit_status run.1 = 1%Z ∧
  fs run.2 = fs world_dir_input ∧
  stdout run.2 = stdout world_dir_input ∧
  calls run.2 = calls world_dir_input
                ++ [CallExists "result.csv"; CallReadCsv "result.csv"].
Proof.
  apply (directory_input_fails_cleanly "plotResults.py" "result.csv"
           world_dir_input).
  reflexivity.
Defined.

(** X8: a table without any row flagged 1 makes the run fail with a
    [ValueError] in the first chart, after [results] has been created if it
    was absent: the directory stays behind, empty of images, no [savefig]
    is called and the status is 1. *)
Theorem no_inc_rows_fails_after_makedirs (path : string) (df : DataFrame)
    (s : state) :
  fs s !! path = Some (File (Csv df)) ->
  select_INC 1 df = [] ->
  let run := visualize_data path s in
  run.1 = Raise ValueError ∧
  exit_status run.1 = 1%Z ∧
  fs run.2 =
    (if bool_decide (is_Some (fs s !! "results"%string)) then fs s
     else <["results"%string := Dir]> (fs s)) ∧
  calls run.2 =
    calls s ++ [CallExists path; CallReadCsv path; CallExists "results"]
    ++ (if bool_decide (is_Some (fs s !! "results"%string)) then []
        else [CallMakedirs "results"]) ∧
  stdout run.2 = stdout s.
Proof.
  intros Hp Hinc run. subst run.
  rewrite (visualize_data_charts path df s Hp). rewrite Hinc.
  unfold charts. cbn [run_charts]. unfold render_outcome.
  cbn [column map]. rewrite comp_nodes_ticks_empty_inc.
  cbn [replicate tick_labels py_int].
  unfold loaded. cbn [fst snd fs calls stdout exit_status]. done.
Qed.

Lemma no_inc_rows_fails_after_makedirs_witness :
  let run := visualize_data "result.csv" world_no_inc_rows in
  run.1 = Raise ValueError ∧
  exit_status run.1 = 1%Z ∧
  fs run.2 =
    (if bool_decide (is_Some (fs world_no_inc_rows !! "results"%string))
     then fs world_no_inc_rows
     else <["results"%string := Dir]> (fs world_no_inc_rows)) ∧
  calls run.2 =
    calls world_no_inc_rows
    ++ [CallExists "result.csv"; CallReadCsv "result.csv"; CallExists "results"]
    ++ (if bool_decide (is_Some (fs world_no_inc_rows !! "results"%string))
        then [] else [CallMakedirs "results"]) ∧
  stdout run.2 = stdout world_no_inc_rows.
Proof.
  apply (no_inc_rows_fails_after_makedirs "result.csv" example_trad
           world_no_inc_rows).
  - reflexivity.
  - reflexivity.
Defined.

Lemma render_outcome_saved (c : Chart) (dfA dfB : DataFrame) (s : state)
    (labels : list string) :
  tick_labels (comp_nodes_ticks (column CompNodes dfA) (column CompNodes dfB))
    = Ok labels ->
  open_for_write (fs s) (output_file c) = Ok tt ->
  render_outcome c dfA dfB s =
  (Ok tt,
   mkState (<[output_file c := File (Png (saved_figure c dfA dfB labels))]> (fs s))
     (stdout s) (calls s ++ [CallSavefig (output_file c)]) (figures s) (heap s)).
Proof. intros Hl Ho. unfold render_outcome. by rewrite Hl, Ho. Qed.

Lemma render_outcome_blocked (c : Chart) (dfA dfB : DataFrame) (s : state)
    (labels : list string) (e : exn) :
  tick_labels (comp_nodes_ticks (column CompNodes dfA) (column CompNodes dfB))
    = Ok labels ->
  open_for_write (fs s) (output_file c) = Raise e ->
  render_outcome c dfA dfB s =
  (Raise e,
   mkState (fs s) (stdout s) (calls s ++ [CallSavefig (output_file c)])
     (saved_figure c dfA dfB labels :: figures s) (heap s)).
Proof. intros Hl Ho. unfold render_outcome. by rewrite Hl, Ho. Qed.

(** The labels of the two cohorts of a table with an INC-enabled row and
    positive node counts in both cohorts. *)
Lemma cohort_labels (df : DataFrame) :
  select_INC 1 df ≠ [] ->
  (∀ r, r ∈ df -> INC r = 1%Z ∨ INC r = 0%Z -> (0 < CompNodes r)%Z) ->
  ∃ labels,
    tick_labels (comp_nodes_ticks (column CompNodes (select_INC 1 df))
                   (column CompNodes (select_INC 0 df))) = Ok labels.
Proof.
  intros Hinc Hpos.
  destruct (comp_nodes_ticks_finite
              (column CompNodes (select_INC 1 df))
              (column CompNodes (select_INC 0 df))) as (rs & Hrs & _).
  { by destruct (select_INC 1 df). }
  { intros n Hn. unfold column in Hn.
    apply elem_of_app in Hn as [Hn|Hn];
      apply list_elem_of_fmap in Hn as (r & -> & Hr);
      apply select_INC_spec in Hr as [Hr Hflag]; auto. }
  rewrite Hrs, tick_labels_fin. by eexists.
Qed.

Lemma open_for_write_results_file (m : gmap string node) (path : string)
    (c : content) :
  dirname path = Some "results"%string ->
  m !! "results"%string = Some (File c) ->
  open_for_write m path = Raise NotADirectoryError.
Proof. intros Hdir Hres. unfold open_for_write. by rewrite Hdir, Hres. Qed.

(** X9: a regular file called [results] passes for the directory: the
    existence check succeeds, [makedirs] is skipped, and the run fails
    without changing the file system; when the ticks can be computed the
    failure is the [NotADirectoryError] of the first [savefig]. *)
Theorem results_file_blocks_run (path : string) (df : DataFrame) (c : content)
    (s : state) :
  fs s !! path = Some (File (Csv df)) ->
  fs s !! "results"%string = Some (File c) ->
  let run := visualize_data path s in
  (∃ e, run.1 = Raise e) ∧
  exit_status run.1 = 1%Z ∧
  fs run.2 = fs s ∧
  (∀ q, CallMakedirs q ∉ drop (length (calls s)) (calls run.2)) ∧
  (select_INC 1 df ≠ [] ->
   (∀ r, r ∈ df -> INC r = 1%Z ∨ INC r = 0%Z -> (0 < CompNodes r)%Z) ->
   run.1 = Raise NotADirectoryError).
Proof.
  intros Hp Hres run. subst run.
  rewrite (visualize_data_charts path df s Hp).
  assert (open_for_write (fs (loaded path df s)) "results/TimingCost.png"
          = Raise NotADirectoryError) as Hopen.
  { apply (open_for_write_results_file _ "results/TimingCost.png" c);
      [reflexivity|].
    unfold loaded. cbn [fs].
    by rewrite bool_decide_eq_true_2 by (by eexists). }
  assert (∀ q, CallMakedirs q ∉ drop (length (calls s)) (calls (loaded path df s)))
    as Hcalls.
  { intros q. unfold loaded. cbn [calls].
    rewrite bool_decide_eq_true_2 by (by eexists).
    rewrite drop_app_length, app_nil_r. intros Hq.
    repeat (apply elem_of_cons in Hq as [Hq|Hq]; [discriminate|]).
    by apply elem_of_nil in Hq. }
  assert (fs (loaded path df s) = fs s) as Hfs.
  { unfold loaded. cbn [fs]. by rewrite bool_decide_eq_true_2 by (by eexists). }
  unfold charts. cbn [run_charts].
  destruct (tick_labels
              (comp_nodes_ticks (column CompNodes (select_INC 1 df))
                 (column CompNodes (select_INC 0 df))))
    as [labels|e] eqn:Hlabels.
  - rewrite (render_outcome_blocked timing_cost_chart _ _ _ labels
               NotADirectoryError Hlabels Hopen).
    cbn [fst snd fs calls exit_status].
    split; [by eexists|]. split; [done|]. split; [done|]. split; [|done].
    intros q Hq. rewrite drop_app_le in Hq.
    2:{ unfold loaded. cbn [calls]. rewrite length_app. lia. }
    apply elem_of_app in Hq as [Hq|Hq]; [by apply (Hcalls q)|].
    apply list_elem_of_singleton in Hq. discriminate.
  - unfold render_outcome. rewrite Hlabels. cbn [fst snd fs calls].
    split; [by eexists|]. split.
    { destruct (tick_labels_errors _ _ Hlabels) as [-> | ->]; done. }
    split; [done|]. split; [done|].
    intros Hinc Hpos. destruct (cohort_labels df Hinc Hpos) as [labels Hok].
    rewrite Hok in Hlabels. discriminate.
Qed.

Lemma results_file_blocks_run_witness :
  let run := visualize_data "result.csv" world_results_is_file in
  (∃ e, run.1 = Raise e) ∧
  exit_status run.1 = 1%Z ∧
  fs run.2 = fs world_results_is_file ∧
  (∀ q, CallMakedirs q
        ∉ drop (length (calls world_results_is_file)) (calls run.2)) ∧
  (select_INC 1 example_data ≠ [] ->
   (∀ r, r ∈ example_data -> INC r = 1%Z ∨ INC r = 0%Z -> (0 < CompNodes r)%Z) ->
   run.1 = Raise NotADirectoryError).
Proof.
  apply (results_file_blocks_run "result.csv" example_data Blob
           world_results_is_file).
  - reflexivity.
  - reflexivity.
Defined.

Lemma open_for_write_is_directory (m : gmap string node) (path : string) :
  dirname path = Some "results"%string ->
  m !! "results"%string = Some Dir ->
  m !! path = Some Dir ->
  open_for_write m path = Raise IsADirectoryError.
Proof.
  intros Hdir Hres Hp. unfold open_for_write. by rewrite Hdir, Hres, Hp.
Qed.

(** X10: the four charts are written one after the other with nothing to
    undo a partial result: when [results] is a directory, the first image
    can be written and a directory sits under the name of the second, the
    run fails with [IsADirectoryError] (status 1) having written the first
    image and nothing else, after exactly two [savefig] calls. *)
Theorem blocked_second_chart_leaves_first (path : string) (df : DataFrame)
    (s : state) :
  fs s !! path = Some (File (Csv df)) ->
  select_INC 1 df ≠ [] ->
  (∀ r, r ∈ df -> INC r = 1%Z ∨ INC r = 0%Z -> (0 < CompNodes r)%Z) ->
  fs s !! "results"%string = Some Dir ->
  fs s !! "results/TimingCost.png"%string ≠ Some Dir ->
  fs s !! "results/BandwidthUsage_Msg.png"%string = Some Dir ->
  let run := visualize_data path s in
  run.1 = Raise IsADirectoryError ∧
  exit_status run.1 = 1%Z ∧
  (∃ fig, fs run.2 = <["results/TimingCost.png"%string := File (Png fig)]> (fs s)) ∧
  calls run.2 =
    calls s ++ [CallExists path; CallReadCsv path; CallExists "results";
                CallSavefig "results/TimingCost.png";
                CallSavefig "results/BandwidthUsage_Msg.png"].
Proof.
  intros Hp Hinc Hpos Hres Hfirst Hsecond run. subst run.
  rewrite (visualize_data_charts path df s Hp).
  destruct (cohort_labels df Hinc Hpos) as [labels Hlabels].
  assert (fs (loaded path df s) = fs s) as Hfs.
  { unfold loaded. cbn [fs]. by rewrite bool_decide_eq_true_2 by (by eexists). }
  assert (calls (loaded path df s) =
          calls s ++ [CallExists path; CallReadCsv path; CallExists "results"])
    as Hcalls.
  { unfold loaded. cbn [calls].
    rewrite bool_decide_eq_true_2 by (by eexists). by rewrite app_nil_r. }
  unfold charts. cbn [run_charts].
  rewrite (render_outcome_saved timing_cost_chart _ _ _ labels Hlabels).
  2:{ apply (open_for_write_results _ "results/TimingCost.png" eq_refl).
      by rewrite Hfs. }
  rewrite (render_outcome_blocked bandwidth_usage_msg_chart _ _ _ labels
             IsADirectoryError Hlabels).
  2:{ apply (open_for_write_is_directory _ "results/BandwidthUsage_Msg.png");
        [reflexivity|..]; cbn [fs]; rewrite lookup_insert_ne by discriminate;
        by rewrite Hfs. }
  cbn [fst snd fs calls exit_status]. rewrite Hfs, Hcalls.
  split; [done|]. split; [done|]. split; [by eexists|].
  by rewrite <- !app_assoc.
Qed.

Lemma blocked_second_chart_leaves_first_witness :
  let run := visualize_data "result.csv" world_blocked_second in
  run.1 = Raise IsADirectoryError ∧
  exit_status run.1 = 1%Z ∧
  (∃ fig, fs run.2 = <["results/TimingCost.png"%string := File (Png fig)]>
                       (fs world_blocked_second)) ∧
  calls run.2 =
    calls world_blocked_second
    ++ [CallExists "result.csv"; CallReadCsv "result.csv"; CallExists "results";
        CallSavefig "results/TimingCost.png";
        CallSavefig "results/BandwidthUsage_Msg.png"].
Proof.
  apply (blocked_second_chart_leaves_first "result.csv" example_data
           world_blocked_second).
  - reflexivity.
  - discriminate.
  - intros r Hr _. unfold example_data in Hr.
    repeat (apply elem_of_cons in Hr as [->|Hr]; [cbn; lia|]).
    by apply elem_of_nil in Hr.
  - reflexivity.
  - by vm_compute.
  - reflexivity.
Defined.

(** ** Runs that succeed *)

(** What a sequence of renders that ends normally has found. *)
Lemma run_charts_ok_all (cs : list Chart) (dfA dfB : DataFrame) :
  (∀ c, c ∈ cs -> c ∈ charts) ->
  ∀ s, (run_charts cs dfA dfB s).1 = Ok tt ->
    (cs = [] ∨
     ((∃ labels,
         tick_labels (comp_nodes_ticks (column CompNodes dfA)
                        (column CompNodes dfB)) = Ok labels)
      ∧ fs s !! "results"%string = Some Dir))
    ∧ ∀ c, c ∈ cs -> fs s !! output_file c ≠ Some Dir.
Proof.
  induction cs as [|c cs IH]; intros Hcs s Hok.
  { split; [by left|]. intros c Hc. by apply elem_of_nil in Hc. }
  cbn [run_charts] in Hok. unfold render_outcome in Hok.
  destruct (tick_labels _) as [labels|e] eqn:Hlabels; [|discriminate].
  cbn zeta in Hok.
  destruct (open_for_write (fs s) (output_file c)) as [[]|e] eqn:Hopen;
    [|discriminate].
  destruct (charts_in_results c) as [Hdir Hne]; [apply Hcs; by left|].
  apply (open_for_write_results _ _ Hdir) in Hopen as [Hres Hfile].
  apply IH in Hok as [_ Hrest]; [|intros c' Hc'; apply Hcs; by right].
  split; [right; split; [by eexists|done]|].
  intros c' Hc'. apply elem_of_cons in Hc' as [->|Hc']; [done|].
  specialize (Hrest c' Hc'). cbn [fs] in Hrest.
  destruct (decide (output_file c = output_file c')) as [Heq|Hdiff].
  - by rewrite <- Heq.
  - by rewrite lookup_insert_ne in Hrest.
Qed.

(** The runs of [visualize_data] that return are those on a table with a
    row flagged 1 and positive node counts in the rows flagged 0 or 1,
    where [results] is absent or a directory and none of the four names
    is a directory. *)
Lemma visualize_data_ok_iff (path : string) (s : state) :
  (visualize_data path s).1 = Ok tt <->
  ∃ df,
    fs s !! path = Some (File (Csv df)) ∧
    select_INC 1 df ≠ [] ∧
    (∀ r, r ∈ df -> INC r = 1%Z ∨ INC r = 0%Z -> (0 < CompNodes r)%Z) ∧
    (fs s !! "results"%string = None ∨ fs s !! "results"%string = Some Dir) ∧
    (∀ q, q ∈ output_files -> fs s !! q ≠ Some Dir).
Proof.
  split.
  - intros Hok.
    destruct (visualize_data_cases path s) as [[_ (e & He & _)]|(df & Hp & Hrun)].
    { rewrite He in Hok. discriminate. }
    rewrite Hrun in Hok. exists df. split; [done|].
    apply run_charts_ok_all in Hok as [[Hnil|[[labels Hlabels] Hres]] Hfiles];
      [discriminate| |done].
    destruct (tick_labels_ok_positive _ _ _ Hlabels) as [HA Hpos].
    split; [intros Hnil; by rewrite Hnil in HA|].
    split.
    { intros r Hr Hflag. apply Hpos. unfold column. apply elem_of_app.
      destruct Hflag as [H1|H0]; [left|right];
        apply list_elem_of_fmap; exists r; (split; [done|]);
        by apply select_INC_spec. }
    unfold loaded in Hres, Hfiles. cbn [fs] in Hres, Hfiles.
    case_bool_decide as Hhad.
    + split; [by right|]. intros q Hq. unfold output_files in Hq.
      apply list_elem_of_fmap in Hq as (c & -> & Hc). by apply Hfiles.
    + split.
      { left. destruct (fs s !! "results"%string) eqn:E; [|done].
        destruct Hhad. by eexists. }
      intros q Hq. unfold output_files in Hq.
      apply list_elem_of_fmap in Hq as (c & -> & Hc).
      specialize (Hfiles c Hc).
      destruct (charts_in_results c Hc) as [_ Hne].
      by rewrite lookup_insert_ne in Hfiles.
  - intros (df & Hp & Hinc & Hpos & Hres & Hfiles).
    rewrite (visualize_data_charts path df s Hp).
    destruct (cohort_labels df Hinc Hpos) as [labels Hlabels].
    destruct (tick_labels_ok_inv _ _ Hlabels) as (rs & Hrs & _).
    assert (∀ c, c ∈ charts -> fs s !! output_file c ≠ Some Dir) as Hfiles'.
    { intros c Hc. apply Hfiles. unfold output_files.
      apply list_elem_of_fmap. by exists c. }
    apply (run_charts_succeeds charts _ _ rs Hrs); [done|..].
    + unfold loaded. cbn [fs]. destruct Hres as [Hres|Hres]; rewrite Hres.
      * rewrite bool_decide_eq_false_2 by (by intros [? ?]).
        by rewrite lookup_insert_eq.
      * by rewrite bool_decide_eq_true_2 by (by eexists).
    + intros c Hc. unfold loaded. cbn [fs].
      destruct (charts_in_results c Hc) as [_ Hne].
      case_bool_decide; [by apply Hfiles'|].
      rewrite lookup_insert_ne by done. by apply Hfiles'.
Qed.

Lemma save_all_lookup_other (cs : list Chart) (dfA dfB : DataFrame)
    (labels : list string) (m : gmap string node) (q : string) :
  q ∉ map output_file cs ->
  save_all cs dfA dfB labels m !! q = m !! q.
Proof.
  revert m. induction cs as [|c cs IH]; intros m Hq; [done|].
  cbn [map] in Hq. apply not_elem_of_cons in Hq as [Hne Hq].
  rewrite save_all_cons, IH by done. by rewrite lookup_insert_ne.
Qed.

(** Under one of the names stands an image that does not depend on what
    was there before. *)
Lemma save_all_lookup_output (cs : list Chart) (dfA dfB : DataFrame)
    (labels : list string) (m m' : gmap string node) (q : string) :
  q ∈ map output_file cs ->
  save_all cs dfA dfB labels m !! q = save_all cs dfA dfB labels m' !! q
  ∧ ∃ fig, save_all cs dfA dfB labels m !! q = Some (File (Png fig)).
Proof.
  revert m m'. induction cs as [|c cs IH]; intros m m' Hq.
  { by apply elem_of_nil in Hq. }
  rewrite !save_all_cons.
  destruct (decide (q ∈ map output_file cs)) as [Hin|Hnotin].
  - by apply IH.
  - cbn [map] in Hq. apply elem_of_cons in Hq as [->|Hq]; [|done].
    rewrite !save_all_lookup_other by done.
    rewrite !lookup_insert_eq. split; [done|by eexists].
Qed.

Lemma save_all_idem (cs : list Chart) (dfA dfB : DataFrame)
    (labels : list string) (m : gmap string node) :
  save_all cs dfA dfB labels (save_all cs dfA dfB labels m)
  = save_all cs dfA dfB labels m.
Proof.
  apply map_eq. intros q.
  destruct (decide (q ∈ map output_file cs)) as [Hin|Hnotin].
  - by apply save_all_lookup_output.
  - by rewrite save_all_lookup_other.
Qed.

(** X12: running [visualize_data] again on the result of a run that
    returned, with the same input path (not one of the four image names),
    returns again and leaves the file system exactly as the first run left
    it: the images are replaced by equal images, nothing is added. *)
Theorem rerun_changes_nothing (path : string) (s : state) :
  (visualize_data path s).1 = Ok tt ->
  path ∉ output_files ->
  let s1 := (visualize_data path s).2 in
  (visualize_data path s1).1 = Ok tt ∧
  fs (visualize_data path s1).2 = fs s1.
Proof.
  intros Hok Hpath.
  destruct (proj1 (visualize_data_ok_iff path s) Hok)
    as (df & Hp & Hinc & Hpos & Hres & Hfiles).
  destruct (cohort_labels df Hinc Hpos) as [labels Hlabels].
  rewrite (visualize_data_charts path df s Hp) in Hok |- *.
  destruct (run_charts charts _ _ (loaded path df s)) as [r s1] eqn:Hrun.
  cbn [fst snd] in Hok |- *. subst r.
  apply (run_charts_ok _ _ _ labels Hlabels) in Hrun.
  assert (path ≠ "results"%string) as Hne.
  { intros ->. rewrite Hp in Hres. by destruct Hres. }
  assert (fs (loaded path df s) !! "results"%string = Some Dir) as Hdir.
  { unfold loaded. cbn [fs]. destruct Hres as [Hres|Hres]; rewrite Hres.
    - rewrite bool_decide_eq_false_2 by (by intros [? ?]).
      by rewrite lookup_insert_eq.
    - by rewrite bool_decide_eq_true_2 by (by eexists). }
  assert (fs (loaded path df s) !! path = Some (File (Csv df))) as Hp0.
  { unfold loaded. cbn [fs]. case_bool_decide; [done|].
    by rewrite lookup_insert_ne. }
  assert (fs s1 !! path = Some (File (Csv df))) as Hp1.
  { rewrite Hrun. cbn [fs]. by rewrite save_all_lookup_other. }
  assert (fs s1 !! "results"%string = Some Dir) as Hres1.
  { rewrite Hrun. cbn [fs].
    by rewrite (save_all_lookup_other _ _ _ _ _ _ results_not_output). }
  assert (fs (loaded path df s1) = fs s1) as Hloaded1.
  { unfold loaded. cbn [fs]. by rewrite bool_decide_eq_true_2 by (by eexists). }
  assert ((visualize_data path s1).1 = Ok tt) as Hok1.
  { apply visualize_data_ok_iff. exists df.
    split; [done|]. split; [done|]. split; [done|]. split; [by right|].
    intros q Hq. rewrite Hrun. cbn [fs].
    destruct (save_all_lookup_output charts (select_INC 1 df) (select_INC 0 df)
                labels (fs (loaded path df s)) ∅ q Hq) as [_ [fig ->]].
    discriminate. }
  split; [done|].
  rewrite (visualize_data_charts path df s1 Hp1) in Hok1 |- *.
  destruct (run_charts charts _ _ (loaded path df s1)) as [r s2] eqn:Hrun2.
  cbn [fst snd] in Hok1 |- *. subst r.
  apply (run_charts_ok _ _ _ labels Hlabels) in Hrun2.
  rewrite Hrun2. cbn [fs]. rewrite Hloaded1.
  rewrite Hrun at 1 2. cbn [fs]. apply save_all_idem.
Qed.

Lemma rerun_changes_nothing_witness :
  let s1 := (visualize_data "result.csv" example_world).2 in
  (visualize_data "result.csv" s1).1 = Ok tt ∧
  fs (visualize_data "result.csv" s1).2 = fs s1.
Proof.
  apply (rerun_changes_nothing "result.csv" example_world).
  - apply example_world_run.
  - unfold output_files.
    cbn [map charts output_file timing_cost_chart bandwidth_usage_msg_chart
           bandwidth_usage_byte_chart compl_time_diff_chart].
    repeat (apply not_elem_of_cons; split; [discriminate|]).
    apply not_elem_of_nil.
Defined.

(** ** What a chart holds and what a render leaves open *)

Lemma saved_figure_lines (c : Chart) (dfA dfB : DataFrame) (labels : list string) :
  fig_lines (saved_figure c dfA dfB labels) =
  [mkLine (column CompNodes dfA) (column (metric c) dfA) "INC-enabled" "o";
   mkLine (column CompNodes dfB) (column (metric c) dfB) "Traditional" "D"]
  ∧ fig_xscale (saved_figure c dfA dfB labels) = "log"%string
  ∧ fig_yscale (saved_figure c dfA dfB labels) = "linear"%string.
Proof. by repeat split. Qed.

Lemma renderChart_image (c : Chart) (a b : loc) (dfA dfB : DataFrame)
    (s : state) :
  heap s !! a = Some dfA ->
  heap s !! b = Some dfB ->
  (renderChart c a b s).1 = Ok tt ->
  ∃ fig,
    fs (renderChart c a b s).2 !! output_file c = Some (File (Png fig)) ∧
    fig_lines fig =
      [mkLine (column CompNodes dfA) (column (metric c) dfA) "INC-enabled" "o";
       mkLine (column CompNodes dfB) (column (metric c) dfB) "Traditional" "D"] ∧
    fig_xscale fig = "log"%string ∧ fig_yscale fig = "linear"%string.
Proof.
  intros Ha Hb Hok.
  destruct (renderChart_returns c a b s Hok)
    as (dfA' & dfB' & labels & Ha' & Hb' & _ & _ & ->).
  rewrite Ha in Ha'. rewrite Hb in Hb'.
  injection Ha' as <-. injection Hb' as <-.
  eexists. cbn [snd fs]. rewrite lookup_insert_eq.
  split; [reflexivity|]. apply saved_figure_lines.
Qed.

(** X13: each of the four plot functions draws its own metric: the image
    it saves has exactly two lines, the INC-enabled cohort first (marker
    [o]) and the traditional one second (marker [D]), each with one point
    per row of the cohort in file order, the node count on a logarithmic
    x axis and, on a linear y axis, the timing cost, the message count,
    the byte count and the completion-time difference respectively. *)
Theorem each_chart_plots_its_metric (a b : loc) (dfA dfB : DataFrame)
    (s : state) :
  heap s !! a = Some dfA ->
  heap s !! b = Some dfB ->
  let drawn (run : result unit * state) (path : string)
            (col : ResultRow -> Z) :=
    run.1 = Ok tt ->
    ∃ fig,
      fs run.2 !! path = Some (File (Png fig)) ∧
      fig_lines fig =
        [mkLine (column CompNodes dfA) (column col dfA) "INC-enabled" "o";
         mkLine (column CompNodes dfB) (column col dfB) "Traditional" "D"] ∧
      fig_xscale fig = "log"%string ∧ fig_yscale fig = "linear"%string in
  drawn (plot_timing_cost a b s) "results/TimingCost.png"%string TimingCost ∧
  drawn (plot_bandwidth_usage_msg a b s) "results/BandwidthUsage_Msg.png"%string
    BandwidthUsage_Msg ∧
  drawn (plot_bandwidth_usage_byte a b s) "results/BandwidthUsage_Byte.png"%string
    BandwidthUsage_Byte ∧
  drawn (plot_compl_time_diff a b s) "results/ComplTimeDiff.png"%string
    ComplTimeDiff.
Proof.
  intros Ha Hb drawn. subst drawn. cbn beta.
  rewrite plot_timing_cost_renderChart, plot_bandwidth_usage_msg_renderChart,
    plot_bandwidth_usage_byte_renderChart, plot_compl_time_diff_renderChart.
  split; [|split; [|split]]; intros Hok.
  - apply (renderChart_image timing_cost_chart a b dfA dfB s Ha Hb Hok).
  - apply (renderChart_image bandwidth_usage_msg_chart a b dfA dfB s Ha Hb Hok).
  - apply (renderChart_image bandwidth_usage_byte_chart a b dfA dfB s Ha Hb Hok).
  - apply (renderChart_image compl_time_diff_chart a b dfA dfB s Ha Hb Hok).
Qed.

Lemma each_chart_plots_its_metric_witness :
  ∃ fig,
    fs (plot_bandwidth_usage_byte 0 1 example_state).2
      !! "results/BandwidthUsage_Byte.png"%string = Some (File (Png fig)) ∧
    fig_lines fig =
      [mkLine (column CompNodes example_inc) (column BandwidthUsage_Byte example_inc)
         "INC-enabled" "o";
       mkLine (column CompNodes example_trad) (column BandwidthUsage_Byte example_trad)
         "Traditional" "D"] ∧
    fig_xscale fig = "log"%string ∧ fig_yscale fig = "linear"%string.
Proof.
  apply (each_chart_plots_its_metric 0 1 example_inc example_trad example_state).
  - reflexivity.
  - reflexivity.
  - rewrite plot_bandwidth_usage_byte_renderChart.
    apply (renderChart_succeeds bandwidth_usage_byte_chart 0 1
             example_inc example_trad example_state).
    + reflexivity.
    + reflexivity.
    + discriminate.
    + intros n Hn. vm_compute in Hn.
      repeat (apply elem_of_cons in Hn as [->|Hn]; [lia|]).
      by apply elem_of_nil in Hn.
    + vm_compute. reflexivity.
Defined.

(** X14: a plot function that returns has closed the figure it opened,
    so the figure stack is as before and nothing was printed; one that
    ends in an exception (the cohorts being there) has not reached
    [plt.close()] and leaves exactly its own figure open on top. *)
Theorem figure_closed_only_on_success (f : loc -> loc -> Py unit) (p : string)
    (a b : loc) (dfA dfB : DataFrame) (s : state) :
  (f, p) ∈ plots ->
  heap s !! a = Some dfA ->
  heap s !! b = Some dfB ->
  stdout (f a b s).2 = stdout s ∧
  ((f a b s).1 = Ok tt -> figures (f a b s).2 = figures s) ∧
  (∀ e, (f a b s).1 = Raise e ->
        ∃ fig, figures (f a b s).2 = fig :: figures s).
Proof.
  intros Hf Ha Hb.
  destruct (plots_renderChart f p Hf) as (c & _ & -> & ->).
  rewrite (renderChart_run c a b dfA dfB s Ha Hb). unfold render_outcome.
  destruct (tick_labels _) as [labels|e].
  - cbn zeta. destruct (open_for_write _ _) as [[]|e]; cbn [fst snd stdout figures].
    + split; [done|]. split; [done|]. intros e [=].
    + split; [done|]. split; [intros [=]|]. intros e' _. by eexists.
  - cbn [fst snd stdout figures].
    split; [done|]. split; [intros [=]|]. intros e' _. by eexists.
Qed.

Lemma figure_closed_only_on_success_witness :
  stdout (plot_timing_cost 0 1 example_state_no_inc).2
    = stdout example_state_no_inc ∧
  ((plot_timing_cost 0 1 example_state_no_inc).1 = Ok tt ->
   figures (plot_timing_cost 0 1 example_state_no_inc).2
     = figures example_state_no_inc) ∧
  (∀ e, (plot_timing_cost 0 1 example_state_no_inc).1 = Raise e ->
        ∃ fig, figures (plot_timing_cost 0 1 example_state_no_inc).2
               = fig :: figures example_state_no_inc).
Proof.
  apply (figure_closed_only_on_success plot_timing_cost "results/TimingCost.png"
           0 1 [] example_trad example_state_no_inc).
  - apply plot_timing_cost_in_plots.
  - reflexivity.
  - reflexivity.
Defined.

(** X15: the program prints at most one line to standard output, and only
    the usage line (more than one argument) or the file-not-found line of
    a path that names nothing; on every other run, successful or not,
    standard output is left as it was. *)
Theorem prints_at_most_one_line (argv : list string) (s : state) :
  stdout (main argv s).2 = stdout s
  ∨ ((2 < length argv)%nat ∧
     stdout (main argv s).2 =
     stdout s ++ ["Usage: python plotResults.py [<csv_file_path>]"%string])
  ∨ ∃ path, (length argv <= 2)%nat ∧ fs s !! path = None ∧
            main argv s = visualize_data path s ∧
            stdout (main argv s).2 = stdout s ++ ["File not found: " +:+ path].
Proof.
  destruct (main_cases argv s) as [[Hlen ->]|[Hlen [path Hmain]]].
  { right. left. by split. }
  destruct (fs s !! path) as [n|] eqn:Hp.
  2:{ right. right. exists path. rewrite Hmain.
      by rewrite (visualize_data_missing path s Hp). }
  left. rewrite Hmain.
  assert ((∃ df, n = File (Csv df)) ∨ ∀ df, n ≠ File (Csv df)) as [[df ->]|Hnot].
  { destruct n as [|[df|fig|]]; [by right|left; by eexists|by right..]. }
  - rewrite (visualize_data_charts path df s Hp).
    by destruct (run_charts_frame charts (select_INC 1 df) (select_INC 0 df)
                   (loaded path df s)) as (-> & _).
  - by rewrite (visualize_data_unreadable path n s Hp Hnot).
Qed.

(** X11: run with one argument on a table of int64 values with at least
    one row flagged 1 and a positive node count in every row flagged 0 or
    1, where [results] is absent or a directory and none of the four image
    names is a directory, the program returns with status 0, prints
    nothing and leaves an image under each of the four names; rows with
    another flag do not matter. *)
Theorem well_formed_input_exits_zero (prog path : string) (df : DataFrame)
    (s : state) :
  fs s !! path = Some (File (Csv df)) ->
  (∀ r, r ∈ df -> row_int64 r) ->
  select_INC 1 df ≠ [] ->
  (∀ r, r ∈ df -> INC r = 1%Z ∨ INC r = 0%Z -> (0 < CompNodes r)%Z) ->
  fs s !! "results"%string = None ∨ fs s !! "results"%string = Some Dir ->
  (∀ q, q ∈ output_files -> fs s !! q ≠ Some Dir) ->
  let run := main [prog; path] s in
  run.1 = Ok tt ∧
  exit_status run.1 = 0%Z ∧
  stdout run.2 = stdout s ∧
  (∀ q, q ∈ output_files -> ∃ fig, fs run.2 !! q = Some (File (Png fig))).
Proof.
  intros Hp _ Hinc Hpos Hres Hfiles run. subst run.
  rewrite main_one_argument.
  assert ((visualize_data path s).1 = Ok tt) as Hok.
  { apply visualize_data_ok_iff. by exists df. }
  destruct (cohort_labels df Hinc Hpos) as [labels Hlabels].
  rewrite (visualize_data_charts path df s Hp) in Hok |- *.
  destruct (run_charts charts _ _ (loaded path df s)) as [r s1] eqn:Hrun.
  cbn [fst snd] in Hok |- *. subst r.
  apply (run_charts_ok _ _ _ labels Hlabels) in Hrun. subst s1.
  cbn [fs stdout exit_status].
  split; [done|]. split; [done|]. split; [done|].
  intros q Hq.
  by destruct (save_all_lookup_output charts (select_INC 1 df) (select_INC 0 df)
                 labels (fs (loaded path df s)) ∅ q Hq) as [_ Hfig].
Qed.

Lemma well_formed_input_exits_zero_witness :
  let run := main ["plotResults.py"; "result.csv"]%string example_world in
  run.1 = Ok tt ∧
  exit_status run.1 = 0%Z ∧
  stdout run.2 = stdout example_world ∧
  (∀ q, q ∈ output_files -> ∃ fig, fs run.2 !! q = Some (File (Png fig))).
Proof.
  apply (well_formed_input_exits_zero "plotResults.py" "result.csv"
           example_data example_world).
  - reflexivity.
  - intros r Hr. unfold example_data in Hr.
    repeat (apply elem_of_cons in Hr as [->|Hr];
            [repeat split; by vm_compute|]).
    by apply elem_of_nil in Hr.
  - discriminate.
  - intros r Hr _. unfold example_data in Hr.
    repeat (apply elem_of_cons in Hr as [->|Hr]; [cbn; lia|]).
    by apply elem_of_nil in Hr.
  - left. reflexivity.
  - intros q Hq. unfold output_files in Hq.
    cbn [map charts output_file timing_cost_chart bandwidth_usage_msg_chart
           bandwidth_usage_byte_chart compl_time_diff_chart] in Hq.
    repeat (apply elem_of_cons in Hq as [->|Hq]; [by vm_compute|]).
    by apply elem_of_nil in Hq.
Defined.
